(** * Data-quality health check: a Rocq model of [dq_health_check.py]
       and of the upload handler of [app.py]

    The development embeds the reconciliation core of the repository
    (the rule and source models, rule extraction and the four checks
    aggregated by [run_health_check]) and states its behaviour.

    Conventions of the embedding.
    - A Python [str] is a [string]; [strip], [lower] and [split] follow the
      Python methods on text made of code points below 128 (characters
      above are kept as they are: neither whitespace nor cased).
    - A Python [set] of strings is a [gset string]; a [dict] that is only
      read through lookups and emptiness tests is a [gmap]; the [dict]s
      that are iterated ([sources], [others], [fields]) are association
      lists in insertion order.
    - A raised exception is the left injection of a sum. *)

From Stdlib Require Import Ascii DecimalString.
From Stdlib Require DecimalNat DecimalFacts.
From stdpp Require Import gmap strings list sorting.

Local Open Scope stdpp_scope.

(** ** Python string methods *)

Module Py.

Definition chars : string → list ascii := String.list_ascii_of_string.
Definition str_of : list ascii → string := String.string_of_list_ascii.

(** [str.isspace] on one character: tab, line feed, vertical tab, form
    feed, carriage return, the four separators 28 to 31 and the space. *)
Definition isspace (c : ascii) : bool :=
  let n := nat_of_ascii c in
  ((9 <=? n) && (n <=? 13)) || ((28 <=? n) && (n <=? 32)).

Definition isupper (c : ascii) : bool :=
  let n := nat_of_ascii c in (65 <=? n) && (n <=? 90).


Definition lower_char (c : ascii) : ascii :=
  if isupper c then ascii_of_nat (nat_of_ascii c + 32) else c.

(** [s.lower()], for the letters A to Z; a character above 127 is kept as it
    is, so that the model is that of [str.lower] on ASCII text only. *)
Fixpoint lower (s : string) : string :=
  match s with
  | EmptyString => EmptyString
  | String c s' => String (lower_char c) (lower s')
  end.

Fixpoint lstrip_chars (l : list ascii) : list ascii :=
  match l with
  | [] => []
  | c :: l' => if isspace c then lstrip_chars l' else l
  end.

Definition rstrip_chars (l : list ascii) : list ascii :=
  reverse (lstrip_chars (reverse l)).

(** [s.strip()], for the ASCII whitespace; the whitespace characters above
    127 (such as U+00A0) are not stripped, so that the model is that of
    [str.strip] on ASCII text only. *)
Definition strip (s : string) : string :=
  str_of (rstrip_chars (lstrip_chars (chars s))).

(** [s.split(",")]: never empty, one more piece than there are commas. *)
Fixpoint split_comma (s : string) : list string :=
  match s with
  | EmptyString => [EmptyString]
  | String c s' =>
      if decide (c = ","%char) then EmptyString :: split_comma s'
      else match split_comma s' with
           | t :: ts => String c t :: ts
           | [] => [String c EmptyString]
           end
  end.

(** [sep.join(l)] *)
Fixpoint join (sep : string) (l : list string) : string :=
  match l with
  | [] => ""
  | [s] => s
  | s :: l' => s +:+ sep +:+ join sep l'
  end.

(** [str(n)] for a non-negative [int], as in [f"{n}"]. *)
Definition str_nat (n : nat) : string :=
  NilEmpty.string_of_uint (Nat.to_uint n).

(** [sorted(X)] for a set of strings: the elements in increasing
    lexicographic order. *)
Definition sorted (X : gset string) : list string :=
  merge_sort String.le (elements X).

(** [repr] of a list of strings none of which needs escaping, as printed
    by [f"{l}"]. *)
Definition repr_str (s : string) : string := "'" +:+ s +:+ "'".
Definition repr_list (l : list string) : string :=
  "[" +:+ join ", " (repr_str <$> l) +:+ "]".

End Py.

(** ** Models *)

Definition OK : string := "✅".
Definition FAIL : string := "🛑".
Definition INFO : string := "📝".

(** The exceptions the module can raise. *)
Inductive exn :=
  | ValueError (msg : string)
  | KeyError (key : string).

Global Instance exn_eq_dec : EqDecision exn.
Proof. solve_decision. Defined.

(** [class DataQualityRule] *)
Record DataQualityRule := {
  data_quality_control_name : string;
  header : string
}.

Global Instance DataQualityRule_eq_dec : EqDecision DataQualityRule.
Proof. solve_decision. Defined.

Definition normalized_name (r : DataQualityRule) : string :=
  Py.lower (Py.strip (data_quality_control_name r)).

Definition header_set (r : DataQualityRule) : gset string :=
  if decide (header r = "") then ∅
  else list_to_set
         ((λ h, Py.lower (Py.strip h)) <$>
          filter (λ h, Py.strip h ≠ "") (Py.split_comma (header r))).

(** A cell of a parsed sheet: a missing value (the [nan] that
    [pd.read_excel] puts in an empty cell) or a text. Numbers are left out of
    the model: the text that [str] gives a number read from a row depends on
    the dtypes of all the columns of the table. *)
Inductive cell :=
  | NaN
  | Str (s : string).

Definition isna (c : cell) : bool :=
  match c with NaN => true | _ => false end.

Definition str (c : cell) : string :=
  match c with
  | NaN => "nan"
  | Str s => s
  end.

(** [pd.DataFrame]: the column labels and the rows, each row holding one
    cell per column (a short row reads as missing values). The labels are
    texts, as the header cells of a sheet of rules are; a sheet whose
    header cells are numbers has numeric labels and is outside the model. *)
Record DataFrame := {
  columns : list string;
  rows : list (list cell)
}.

(** [len(df)] *)
Definition len (df : DataFrame) : nat := length (rows df).

Fixpoint index_of (c : string) (cols : list string) : option nat :=
  match cols with
  | [] => None
  | c' :: cols' => if decide (c' = c) then Some 0 else S <$> index_of c cols'
  end.

(** [row[c]]: a [KeyError] when the table has no column [c], and the cell
    of the column [c] when the labels are pairwise distinct, as
    [pd.read_excel] makes them. With a repeated label pandas returns a
    [Series] and not a cell: the statements about rows take the labels
    pairwise distinct. *)
Definition row_get (df : DataFrame) (row : list cell) (c : string) : exn + cell :=
  match index_of c (columns df) with
  | Some i => inr (default NaN (row !! i))
  | None => inl (KeyError c)
  end.

(** A [dict] with string keys, in insertion order. *)
Definition dict (V : Type) : Type := list (string * V).

Fixpoint dict_get {V} (d : dict V) (k : string) : option V :=
  match d with
  | [] => None
  | (k', v) :: d' => if decide (k' = k) then Some v else dict_get d' k
  end.

Definition dict_keys {V} (d : dict V) : list string := fst <$> d.

(** [class DataSet] *)
Record DataSet := {
  name : string;
  dataframe : DataFrame;
  dq_rules : list DataQualityRule;
  fields : dict (dict string)
}.

Definition rule_names (s : DataSet) : gset string :=
  list_to_set (normalized_name <$> dq_rules s).

(** The dict comprehension of [rule_by_name]: a later rule replaces an
    earlier one of the same normalized name. *)
Definition rule_by_name (s : DataSet) : gmap string DataQualityRule :=
  foldl (λ m r, <[normalized_name r := r]> m) ∅ (dq_rules s).

(** ** Helpers *)

Definition required : gset string := {["data_quality_control_name"; "header"]}.

(** The order in which a [set] of strings is iterated depends on the hash
    seed of the interpreter: it is some enumeration of the elements. *)
Record SetOrder := {
  list_of_set : gset string → list string;
  list_of_set_perm : ∀ X, list_of_set X ≡ₚ elements X
}.

Definition missing_columns_msg (missing : list string) : string :=
  "Rules sheet missing columns: " +:+ Py.repr_list missing +:+
  ". Expected: " +:+ Py.repr_list (Py.sorted required).

Definition rule_of_row (df : DataFrame) (row : list cell) : exn + DataQualityRule :=
  match row_get df row "data_quality_control_name" with
  | inl e => inl e
  | inr n =>
      match row_get df row "header" with
      | inl e => inl e
      | inr h =>
          inr {| data_quality_control_name := str n;
                 header := if isna h then "" else str h |}
      end
  end.

Fixpoint rules_of_rows (df : DataFrame) (rs : list (list cell))
  : exn + list DataQualityRule :=
  match rs with
  | [] => inr []
  | row :: rs' =>
      match rule_of_row df row with
      | inl e => inl e
      | inr r =>
          match rules_of_rows df rs' with
          | inl e => inl e
          | inr l => inr (r :: l)
          end
      end
  end.

Definition rules_from_df (ord : SetOrder) (df : DataFrame)
  : exn + list DataQualityRule :=
  if decide (required ⊆ list_to_set (columns df)) then
    rules_of_rows df (rows df)
  else
    let missing := list_of_set ord (required ∖ list_to_set (columns df)) in
    inl (ValueError (missing_columns_msg missing)).

(** The inner loop of [find_missing_headers] over the fields of a source:
    one iteration, and the whole loop. *)
Definition missing_step (src : DataSet) (missing : list string)
    (item : string * dict string) : list string :=
  let '(field_name, meta) := item in
  match dict_get meta "header" with
  | None => missing ++ [field_name]
  | Some h =>
      if decide (h = "") then missing ++ [field_name]
      else if decide (h ∈ columns (dataframe src)) then missing
      else missing ++ [field_name]
  end.

Definition missing_of (src : DataSet) : list string :=
  foldl (missing_step src) [] (fields src).

(** One iteration of the loop over the sources. *)
Definition missing_headers_step (result : gmap string (list string))
    (item : string * DataSet) : gmap string (list string) :=
  let '(_, src) := item in
  let missing := missing_of src in
  match missing with
  | [] => result
  | _ => <[name src := missing]> result
  end.

Definition find_missing_headers (sources : dict DataSet) : gmap string (list string) :=
  foldl missing_headers_step ∅ sources.

Fixpoint compare_rule_counts (main : DataSet) (others : dict DataSet) : bool * string :=
  let m := len (dataframe main) in
  match others with
  | [] =>
      (true, OK +:+ " All sources have the same number of rules as '" +:+
             name main +:+ "'.")
  | (_, s) :: others' =>
      let n := len (dataframe s) in
      if decide (n ≠ m) then
        (false, FAIL +:+ " '" +:+ name main +:+ "' has " +:+ Py.str_nat m +:+
                " rules; '" +:+ name s +:+ "' has " +:+ Py.str_nat n +:+ ".")
      else compare_rule_counts main others'
  end.

Definition exclusive_step (main_names : gset string)
    (exclusives : gmap string (list string)) (item : string * DataSet)
  : gmap string (list string) :=
  let '(_, s) := item in
  let only_there := rule_names s ∖ main_names in
  if decide (only_there = ∅) then exclusives
  else <[name s := Py.sorted only_there]> exclusives.

Definition exclusive_rule_names (main : DataSet) (others : dict DataSet)
  : gmap string (list string) :=
  let main_names := rule_names main in
  foldl (exclusive_step main_names) ∅ others.

(** [d.setdefault(k, []).append(x)] *)
Definition setdefault_append (k x : string) (d : gmap string (list string))
  : gmap string (list string) :=
  <[k := default [] (d !! k) ++ [x]]> d.

Definition sync_rule (main_index : gmap string DataQualityRule) (s : DataSet)
    (mismatches : gmap string (list string)) (r : DataQualityRule)
  : gmap string (list string) :=
  match main_index !! normalized_name r with
  | None => mismatches
  | Some mr =>
      if decide (header_set r ≠ header_set mr)
      then setdefault_append (name s) (data_quality_control_name r) mismatches
      else mismatches
  end.

Definition sync_source (main_index : gmap string DataQualityRule)
    (mismatches : gmap string (list string)) (item : string * DataSet)
  : gmap string (list string) :=
  let '(_, s) := item in
  foldl (sync_rule main_index s) mismatches (dq_rules s).

Definition sync_check (main : DataSet) (others : dict DataSet)
  : gmap string (list string) :=
  let main_index := rule_by_name main in
  foldl (sync_source main_index) ∅ others.

(** ** Orchestration *)

(** The dict returned by [run_health_check]. *)
Record Report := {
  ok : bool;
  missing_headers : gmap string (list string);
  main_source : string;
  rule_count_ok : bool;
  rule_count_msg : string;
  exclusives : gmap string (list string);
  mismatches : gmap string (list string);
  emoji : dict string
}.

(** [{k: v for k, v in sources.items() if k != main_key}] *)
Definition without_key {V} (d : dict V) (k : string) : dict V :=
  filter (λ kv, kv.1 ≠ k) d.

Definition run_health_check (sources : dict DataSet) (main_key : option string)
  : exn + Report :=
  match sources with
  | [] => inl (ValueError "No sources uploaded.")
  | (first, _) :: _ =>
      let missing := find_missing_headers sources in
      let main_key := default first main_key in
      match dict_get sources main_key with
      | None => inl (KeyError main_key)
      | Some main =>
          let others := without_key sources main_key in
          let '(same_count, rule_msg) := compare_rule_counts main others in
          let exclusives := if same_count then exclusive_rule_names main others else ∅ in
          let mismatches := if same_count then sync_check main others else ∅ in
          inr {| ok := bool_decide (missing = ∅) && same_count &&
                       bool_decide (exclusives = ∅) && bool_decide (mismatches = ∅);
                 missing_headers := missing;
                 main_source := name main;
                 rule_count_ok := same_count;
                 rule_count_msg := rule_msg;
                 exclusives := exclusives;
                 mismatches := mismatches;
                 emoji := [("OK", OK); ("FAIL", FAIL); ("INFO", INFO)] |}
      end
  end.

(** ** Vocabulary of the statements *)

(** A token of a header string holds no comma. *)
Definition comma_free (t : string) : Prop := ","%char ∉ Py.chars t.



Definition all_space (s : string) : Prop := Forall (λ c, Py.isspace c = true) (Py.chars s).



(** The key of the main source: the one supplied, or else the first key of
    the mapping. *)
Definition main_key_of (sources : dict DataSet) (main_key : option string)
    (k : string) : Prop :=
  match main_key with
  | Some k' => k = k'
  | None => head (dict_keys sources) = Some k
  end.

Definition same_count (main : DataSet) (kv : string * DataSet) : Prop :=
  len (dataframe kv.2) = len (dataframe main).

Global Instance same_count_dec main kv : Decision (same_count main kv).
Proof. unfold same_count. apply _. Defined.

(** The failure message of the row-count comparison as the specification
    words it: both counts are followed by the word "rules". *)
Definition spec_count_fail_msg (main other : DataSet) : string :=
  FAIL +:+ " '" +:+ name main +:+ "' has " +:+ Py.str_nat (len (dataframe main)) +:+
  " rules; '" +:+ name other +:+ "' has " +:+ Py.str_nat (len (dataframe other)) +:+
  " rules.".

(** The missing columns as the specification words them: in sorted order. *)
Definition spec_missing_columns (df : DataFrame) : list string :=
  Py.sorted (required ∖ list_to_set (columns df)).

(** The display names of the sources of a mapping, in insertion order. *)
Definition display_names (sources : dict DataSet) : list string :=
  (λ kv, name kv.2) <$> sources.

(** A declared field is missing when its expected header is absent or
    empty, or is not a column label of the table of the source. *)
Definition header_missing (src : DataSet) (meta : dict string) : Prop :=
  match dict_get meta "header" with
  | None => True
  | Some h => h = "" ∨ h ∉ columns (dataframe src)
  end.

Global Instance header_missing_dec src meta : Decision (header_missing src meta).
Proof. unfold header_missing. destruct (dict_get meta "header"); apply _. Defined.

(** The missing fields of a source as the specification words them. *)
Definition spec_missing_fields (src : DataSet) : list string :=
  fst <$> filter (λ fm, header_missing src fm.2) (fields src).

(** The rule that main's by-name mapping holds for a normalized name: the
    last rule of main with that name. *)
Definition main_rule (main : DataSet) (n : string) : option DataQualityRule :=
  last (filter (λ r, normalized_name r = n) (dq_rules main)).

(** A rule of another source is out of sync when main's by-name mapping
    holds a rule of the same normalized name with another header set. *)
Definition is_mismatch (main : DataSet) (r : DataQualityRule) : Prop :=
  match main_rule main (normalized_name r) with
  | Some mr => header_set r ≠ header_set mr
  | None => False
  end.

Global Instance is_mismatch_dec main r : Decision (is_mismatch main r).
Proof. unfold is_mismatch. destruct (main_rule main (normalized_name r)); apply _. Defined.

(** The mismatch list kept under a display name as the specification
    words it: the original names of the out-of-sync rules of the sources
    bearing that name, in source order and then in rule order. *)
Definition spec_mismatches (main : DataSet) (nm : string) (others : dict DataSet)
  : list string :=
  others ≫= λ kv,
    if decide (name kv.2 = nm)
    then data_quality_control_name <$> filter (is_mismatch main) (dq_rules kv.2)
    else [].

(** No display name is mapped to an empty list. *)
Definition no_empty_entry (m : gmap string (list string)) : Prop :=
  ∀ k, m !! k ≠ Some [].

(** ** Sample inputs *)

Definition rules_sheet (rs : list (string * string)) : DataFrame :=
  {| columns := ["data_quality_control_name"; "header"];
     rows := (λ nh, [Str nh.1; Str nh.2]) <$> rs |}.

(** A source as the upload handler builds it from a sheet: one rule per
    row and one declared field per column. *)
Definition source_of_sheet (nm : string) (rs : list (string * string)) : DataSet :=
  {| name := nm;
     dataframe := rules_sheet rs;
     dq_rules := (λ nh, {| data_quality_control_name := nh.1; header := nh.2 |}) <$> rs;
     fields := (λ h, (h, [("header", h)])) <$> columns (rules_sheet rs) |}.

Definition main3 : DataSet :=
  source_of_sheet "main.xlsx" [("Check A", "col1,col2"); ("Check B", "col3"); ("Check C", "")].

Definition other2 : DataSet :=
  source_of_sheet "other.xlsx" [("check a", "col2,col1"); ("X", "col9")].

Definition other3 : DataSet :=
  source_of_sheet "third.xlsx" [("check a", "col2, COL1"); ("check b", "col4"); ("X", "col9")].

(** Two iteration orders a hash seed may give: increasing and decreasing. *)
Definition sorted_order : SetOrder :=
  {| list_of_set := Py.sorted;
     list_of_set_perm X := merge_sort_Permutation String.le (elements X) |}.

Definition reverse_order : SetOrder :=
  {| list_of_set X := reverse (Py.sorted X);
     list_of_set_perm X :=
       perm_trans (reverse_Permutation (Py.sorted X))
                  (merge_sort_Permutation String.le (elements X)) |}.

(** A sheet with neither of the required columns, and one without the
    [header] column. *)
Definition foreign_sheet : DataFrame :=
  {| columns := ["id"; "comment"]; rows := [[Str "a"; Str "first"]; [Str "b"; NaN]] |}.

Definition headerless_sheet : DataFrame :=
  {| columns := ["data_quality_control_name"]; rows := [[Str "Check A"]] |}.

Definition mixed_sheet : DataFrame :=
  {| columns := ["header"; "owner"; "data_quality_control_name"];
     rows := [[Str "col1,col2"; Str "ann"; Str "Check A"];
              [NaN; Str "bob"; Str "7"];
              [Str "col3"]] |}.

(** Two uploads that bear the same file name. *)
Definition upload_a : DataSet :=
  {| name := "rules.xlsx";
     dataframe := rules_sheet [("Check Z", "col1")];
     dq_rules := [ {| data_quality_control_name := "Check Z"; header := "col1" |} ];
     fields := [("owner", [("header", "owner")]); ("header", [("header", "header")])] |}.

Definition upload_b : DataSet :=
  source_of_sheet "rules.xlsx" [("check a", "col1,col2")].

(** A main source with two rules of the same normalized name. *)
Definition main_dup : DataSet :=
  source_of_sheet "main.xlsx" [("X", "a"); ("x", "b")].

Definition other_x : DataSet :=
  source_of_sheet "other.xlsx" [("X", "b")].

(** ** The upload handler ([app.py]) *)

(** [l] begins with [p], on characters; [s.endswith(suffix)]. *)
Fixpoint starts_with (l p : list ascii) : bool :=
  match p, l with
  | [], _ => true
  | _ :: _, [] => false
  | a :: p', b :: l' => if decide (a = b) then starts_with l' p' else false
  end.

Definition endswith (s suffix : string) : bool :=
  starts_with (reverse (Py.chars s)) (reverse (Py.chars suffix)).

(** [s.isdigit()] on ASCII text: not empty and made of the digits 0 to 9.
    ([str.isdigit] also accepts digits above 127, on some of which [int]
    fails: the statements about the form field take it to be ASCII.) *)
Definition isdigit_char (c : ascii) : bool :=
  let n := nat_of_ascii c in (48 <=? n) && (n <=? 57).

Definition isdigit (s : string) : bool :=
  match s with
  | EmptyString => false
  | _ => forallb isdigit_char (Py.chars s)
  end.

(** [int(s)] for a string of ASCII digits that is not longer than the
    limit [int] puts on conversions (4300 digits). *)
Definition int_of_digits (s : string) : Z :=
  foldl (λ n c, 10 * n + (Z.of_nat (nat_of_ascii c) - 48))%Z 0%Z (Py.chars s).

(** [d[k] = v]: the value is replaced where the key is, or else the entry
    is added at the end. *)
Fixpoint dict_set {V} (d : dict V) (k : string) (v : V) : dict V :=
  match d with
  | [] => [(k, v)]
  | (k', v') :: d' =>
      if decide (k' = k) then (k', v) :: d' else (k', v') :: dict_set d' k v
  end.

Definition ALLOWED : gset string := {[".xlsx"; ".xls"]}.

Definition _is_allowed (filename : string) : bool :=
  let lower := Py.lower filename in
  bool_decide (set_Exists (λ ext, endswith lower ext = true) ALLOWED).

(** What the handler answers: a redirection to the index page after a
    flashed message, the page rendered from a report, or an exception
    that leaves the handler (raised by the core, or by the reader of the
    sheets). *)
Inductive response (E : Type) :=
  | Redirect (flashed : string)
  | Rendered (report : Report)
  | Raised (e : exn)
  | ReadError (e : E).
Global Arguments Redirect {E} flashed.
Global Arguments Rendered {E} report.
Global Arguments Raised {E} e.
Global Arguments ReadError {E} e.

(** An uploaded file: its name as sent and its content. *)
Record FileStorage (Data : Type) := {
  filename : string;
  stream : Data
}.
Global Arguments filename {Data} f.
Global Arguments stream {Data} f.

Section analyze.
Context {Data E : Type}.
(** [werkzeug.utils.secure_filename] and [pd.read_excel] are taken as
    they come; [ord] is the iteration order of sets. *)
Variable secure_filename : string → string.
Variable read_excel : Data → E + DataFrame.
Variable ord : SetOrder.

(** [{h: {"header": h} for h in df.columns}], the labels being texts as
    everywhere in the model. *)
Definition fields_of_columns (df : DataFrame) : dict (dict string) :=
  foldl (λ fields h, dict_set fields h [("header", h)]) [] (columns df).

(** The loop of [analyze] over the files, from the file number [i] on. *)
Fixpoint analyze_files (i : nat) (files : list (FileStorage Data))
    (sources : dict DataSet) : response E + dict DataSet :=
  match files with
  | [] => inr sources
  | file :: files' =>
      let filename :=
        secure_filename (if decide (filename file = "")
                         then "source_" +:+ Py.str_nat i +:+ ".xlsx"
                         else filename file) in
      if negb (_is_allowed filename) then
        inl (Redirect ("Unsupported file type: " +:+ filename))
      else
        match read_excel (stream file) with
        | inl e => inl (ReadError e)
        | inr df =>
            match rules_from_df ord df with
            | inl e => inl (Raised e)
            | inr rules =>
                let fields := fields_of_columns df in
                analyze_files (S i) files'
                  (dict_set sources ("s" +:+ Py.str_nat i)
                     {| name := filename; dataframe := df;
                        dq_rules := rules; fields := fields |})
            end
        end
  end.

(** The choice of the main source from the form field [main_index]. *)
Definition analyze_main_key (main_index : string) (sources : dict DataSet)
  : option string :=
  let main_index := Py.strip main_index in
  if isdigit main_index then
    let idx := (int_of_digits main_index - 1)%Z in
    let keys := dict_keys sources in
    if decide (0 ≤ idx < Z.of_nat (length keys))%Z then keys !! Z.to_nat idx
    else None
  else None.

(** [analyze]: [files] is [request.files.getlist("sources")] and
    [main_index] is [request.form.get("main_index", "")]. *)
Definition analyze (files : list (FileStorage Data)) (main_index : string)
  : response E :=
  if forallb (λ f, bool_decide (Py.strip (filename f) = "")) files then
    Redirect "Please upload at least one Excel file."
  else
    match analyze_files 1 files [] with
    | inl r => r
    | inr sources =>
        let main_key := analyze_main_key main_index sources in
        match run_health_check sources main_key with
        | inl e => Raised e
        | inr report => Rendered report
        end
    end.
End analyze.

(** ** Further vocabulary *)

(** A text made of ASCII characters only. *)
Definition is_ascii (s : string) : Prop :=
  Forall (λ c, nat_of_ascii c < 128) (Py.chars s).

(** Two rules that are the same for the reconciliation: same normalized
    name and same header set. *)
Definition same_rule (r r' : DataQualityRule) : Prop :=
  normalized_name r = normalized_name r' ∧ header_set r = header_set r'.

(** The name under which the handler registers the file number [i]. *)
Definition upload_name {Data} (secure_filename : string → string) (i : nat)
    (file : FileStorage Data) : string :=
  secure_filename (if decide (filename file = "")
                   then "source_" +:+ Py.str_nat i +:+ ".xlsx"
                   else filename file).

(** ** Sample uploads *)

(** A reader whose files are lists of rows already, and one that finds
    the same sheet, without a [header] column, in every file. *)
Definition sample_reader (rs : list (string * string)) : Empty_set + DataFrame :=
  inr (rules_sheet rs).

Definition headerless_reader (_ : unit) : Empty_set + DataFrame :=
  inr headerless_sheet.

Definition sample_files : list (FileStorage (list (string * string))) :=
  [ {| filename := "Main.XLSX"; stream := [("Check A", "col1"); ("Check B", "col2")] |};
    {| filename := "other.xls"; stream := [("check a", "COL1"); ("X", "")] |} ].

(** ** Evaluation on small inputs *)

Example strip_ex : Py.strip "  Check A	" = "Check A".
Proof. reflexivity. Qed.
Example lower_ex : Py.lower "Check A_1" = "check a_1".
Proof. reflexivity. Qed.
Example split_ex : Py.split_comma "A, b,,C" = ["A"; " b"; ""; "C"].
Proof. reflexivity. Qed.
Example split_empty_ex : Py.split_comma "" = [""].
Proof. reflexivity. Qed.
Example str_nat_ex : Py.str_nat 0 = "0" ∧ Py.str_nat 120 = "120".
Proof. split; reflexivity. Qed.
Example sorted_ex : Py.sorted {["b"; "a"; "ab"]} = ["a"; "ab"; "b"].
Proof. vm_compute. reflexivity. Qed.
Example repr_ex : Py.repr_list ["header"; "x"] = "['header', 'x']".
Proof. reflexivity. Qed.

Example run_single_source :
  match run_health_check [("s1", main3)] None with
  | inr rep =>
      ok rep = true ∧ missing_headers rep = ∅ ∧ exclusives rep = ∅ ∧
      mismatches rep = ∅ ∧ main_source rep = "main.xlsx" ∧
      rule_count_msg rep =
        "✅ All sources have the same number of rules as 'main.xlsx'."
  | inl _ => False
  end.
Proof. by vm_compute. Qed.

Example run_three_rows_against_two :
  match run_health_check [("s1", main3); ("s2", other2)] None with
  | inr rep =>
      ok rep = false ∧ rule_count_ok rep = false ∧ exclusives rep = ∅ ∧
      mismatches rep = ∅ ∧
      rule_count_msg rep = "🛑 'main.xlsx' has 3 rules; 'other.xlsx' has 2."
  | inl _ => False
  end.
Proof. by vm_compute. Qed.

Example run_same_counts :
  match run_health_check [("s1", main3); ("s3", other3)] (Some "s1") with
  | inr rep =>
      ok rep = false ∧ rule_count_ok rep = true ∧
      exclusives rep = {["third.xlsx" := ["x"]]} ∧
      mismatches rep = {["third.xlsx" := ["check b"]]}
  | inl _ => False
  end.
Proof. by vm_compute. Qed.

Example run_no_sources : run_health_check [] None = inl (ValueError "No sources uploaded.").
Proof. reflexivity. Qed.

Example header_set_ex :
  header_set {| data_quality_control_name := "r"; header := " A, b,,C ," |} =
    {["a"; "b"; "c"]}.
Proof. by vm_compute. Qed.

(** ** Strings *)

Lemma app_cons c s t : String c s +:+ t = String c (s +:+ t).
Proof. reflexivity. Qed.



Lemma chars_app s t : Py.chars (s +:+ t) = Py.chars s ++ Py.chars t.
Proof. induction s as [|c s IH]; [done|]. rewrite app_cons. simpl. by rewrite IH. Qed.

Lemma split_comma_nonempty s : Py.split_comma s ≠ [].
Proof.
  destruct s as [|c s]; simpl; [done|].
  case_decide; [done|]. by destruct (Py.split_comma s).
Qed.

Lemma comma_free_cons c t : comma_free (String c t) ↔ c ≠ ","%char ∧ comma_free t.
Proof. unfold comma_free. simpl. rewrite not_elem_of_cons. split; intros []; auto. Qed.





(** *** Stripping and case *)

Lemma lstrip_all_space l : Forall (λ c, Py.isspace c = true) l → Py.lstrip_chars l = [].
Proof. induction 1 as [|c l Hc _ IH]; simpl; [done|]. by rewrite Hc. Qed.











Lemma lower_empty s : Py.lower s = "" ↔ s = "".
Proof. by destruct s. Qed.


(** *** The header set of a comma-separated list of tokens *)





(** ** Row-count comparison *)

Lemma compare_rule_counts_same main others :
  Forall (same_count main) others →
  compare_rule_counts main others =
    (true, OK +:+ " All sources have the same number of rules as '" +:+ name main +:+ "'.").
Proof.
  induction 1 as [|[k s] others Hs _ IH]; simpl; [done|].
  by rewrite decide_False by (by intros []).
Qed.

Lemma compare_rule_counts_differ main pre k s post :
  Forall (same_count main) pre → ¬ same_count main (k, s) →
  compare_rule_counts main (pre ++ (k, s) :: post) =
    (false, FAIL +:+ " '" +:+ name main +:+ "' has " +:+
            Py.str_nat (len (dataframe main)) +:+ " rules; '" +:+ name s +:+
            "' has " +:+ Py.str_nat (len (dataframe s)) +:+ ".").
Proof.
  intros Hpre Hs. induction Hpre as [|[k' s'] pre Hs' _ IH]; simpl.
  - by rewrite decide_True.
  - by rewrite decide_False by (by intros []).
Qed.

Lemma compare_rule_counts_true main others :
  (compare_rule_counts main others).1 = true ↔ Forall (same_count main) others.
Proof.
  split.
  - induction others as [|[k s] others IH]; simpl; [by constructor|].
    case_decide as Hn; simpl; [done|].
    intros Hc. constructor; [|by apply IH].
    unfold same_count. simpl. by destruct (decide (len (dataframe s) = len (dataframe main))).
  - intros Hall. by rewrite compare_rule_counts_same.
Qed.

Lemma compare_rule_counts_false main others k s :
  (k, s) ∈ others → ¬ same_count main (k, s) →
  (compare_rule_counts main others).1 = false.
Proof.
  intros Hin Hs. apply not_true_is_false. rewrite compare_rule_counts_true.
  rewrite Forall_forall. intros Hall. by apply Hs, Hall.
Qed.

(** C3, as the code has it. At the first other source, in insertion
    order, whose row count [n] differs from the row count [m] of main,
    [compare_rule_counts] returns [false] with the message
    "<FAIL> '<main.name>' has <m> rules; '<other.name>' has <n>."
    whatever the later sources are; when no other source differs it
    returns [true] with the message
    "<OK> All sources have the same number of rules as '<main.name>'.". *)
Theorem compare_rule_counts_first_mismatch (main : DataSet) (others : dict DataSet) :
  (∀ pre k s post,
     others = pre ++ (k, s) :: post →
     Forall (λ kv, len (dataframe kv.2) = len (dataframe main)) pre →
     len (dataframe s) ≠ len (dataframe main) →
     compare_rule_counts main others =
       (false, FAIL +:+ " '" +:+ name main +:+ "' has " +:+
               Py.str_nat (len (dataframe main)) +:+ " rules; '" +:+ name s +:+
               "' has " +:+ Py.str_nat (len (dataframe s)) +:+ ".")) ∧
  (Forall (λ kv, len (dataframe kv.2) = len (dataframe main)) others →
   compare_rule_counts main others =
     (true, OK +:+ " All sources have the same number of rules as '" +:+
            name main +:+ "'.")).
Proof.
  split.
  - intros pre k s post -> Hpre Hs. by apply compare_rule_counts_differ.
  - apply compare_rule_counts_same.
Qed.

(** C3, as the specification words it, fails: with three rows in main
    and two in the other source the message returned ends in "has 2.",
    not in "has 2 rules.". *)
Lemma compare_rule_counts_message_differs :
  compare_rule_counts main3 [("s2", other2)] =
    (false, "🛑 'main.xlsx' has 3 rules; 'other.xlsx' has 2.") ∧
  spec_count_fail_msg main3 other2 =
    "🛑 'main.xlsx' has 3 rules; 'other.xlsx' has 2 rules." ∧
  compare_rule_counts main3 [("s2", other2)] ≠ (false, spec_count_fail_msg main3 other2).
Proof. split_and!; [reflexivity|reflexivity|]. by vm_compute. Qed.

Lemma compare_rule_counts_first_mismatch_witness :
  compare_rule_counts main3 [("s3", other3); ("s2", other2); ("s1", main3)] =
    (false, "🛑 'main.xlsx' has 3 rules; 'other.xlsx' has 2.") ∧
  compare_rule_counts main3 [("s3", other3)] =
    (true, "✅ All sources have the same number of rules as 'main.xlsx'.").
Proof.
  split.
  - apply (proj1 (compare_rule_counts_first_mismatch main3 _)
             [("s3", other3)] "s2" other2 [("s1", main3)]).
    + reflexivity.
    + repeat constructor.
    + vm_compute. lia.
  - apply (proj2 (compare_rule_counts_first_mismatch main3 _)).
    repeat constructor.
Defined.

(** ** Orchestration *)

Lemma dict_get_None {V} (d : dict V) k : k ∉ dict_keys d → dict_get d k = None.
Proof.
  induction d as [|[k' v] d IH]; simpl; [done|].
  rewrite not_elem_of_cons. intros [Hk Hd]. rewrite decide_False by done. by apply IH.
Qed.

Lemma dict_get_is_Some {V} (d : dict V) k : k ∈ dict_keys d → is_Some (dict_get d k).
Proof.
  induction d as [|[k' v] d IH]; simpl.
  - by intros ?%elem_of_nil.
  - intros [->|Hk]%elem_of_cons.
    + rewrite decide_True by done. by eexists.
    + case_decide; [by eexists|]. by apply IH.
Qed.

Lemma elem_of_without_key {V} (d : dict V) k k' v :
  (k', v) ∈ without_key d k ↔ (k', v) ∈ d ∧ k' ≠ k.
Proof. unfold without_key. rewrite list_elem_of_filter. simpl. tauto. Qed.

(** The report assembled once a main source has been found. *)
Lemma run_health_check_main sources main_key k main :
  sources ≠ [] → main_key_of sources main_key k → dict_get sources k = Some main →
  let others := without_key sources k in
  let same := (compare_rule_counts main others).1 in
  let excl := if same then exclusive_rule_names main others else ∅ in
  let mism := if same then sync_check main others else ∅ in
  run_health_check sources main_key =
    inr {| ok := bool_decide (find_missing_headers sources = ∅) && same &&
                 bool_decide (excl = ∅) && bool_decide (mism = ∅);
           missing_headers := find_missing_headers sources;
           main_source := name main;
           rule_count_ok := same;
           rule_count_msg := (compare_rule_counts main others).2;
           exclusives := excl;
           mismatches := mism;
           emoji := [("OK", OK); ("FAIL", FAIL); ("INFO", INFO)] |}.
Proof.
  intros Hne Hk Hmain. unfold run_health_check.
  destruct sources as [|[first s0] sources']; [done|].
  assert (default first main_key = k) as ->.
  { destruct main_key as [k'|]; simpl in *; congruence. }
  rewrite Hmain. by destruct (compare_rule_counts _ _).
Qed.

Lemma main_source_exists sources main_key :
  sources ≠ [] → (∀ k, main_key = Some k → k ∈ dict_keys sources) →
  ∃ k main, main_key_of sources main_key k ∧ dict_get sources k = Some main.
Proof.
  intros Hne Hkey. destruct main_key as [k|]; simpl.
  - destruct (dict_get_is_Some sources k) as [main Hmain]; [by apply Hkey|].
    by exists k, main.
  - destruct sources as [|[first s0] sources']; [done|].
    exists first, s0. simpl. by rewrite decide_True.
Qed.

(** C1. For every non-empty mapping of sources (and a main key that, when
    supplied, is one of its keys) [run_health_check] returns a report made
    of the results of the checks: its missing headers are those that
    [find_missing_headers] finds in all the sources, its row counts match
    exactly when every source other than main has as many rows as main, and
    its exclusives and mismatches are those that [exclusive_rule_names] and
    [sync_check] find in the other sources when the row counts match, and
    are empty otherwise. The [ok] flag of the report is set exactly when
    the missing-headers mapping is empty, the row counts matched, the
    exclusives mapping is empty and the mismatches mapping is empty. *)
Theorem run_health_check_ok_iff (sources : dict DataSet) (main_key : option string) :
  sources ≠ [] →
  (∀ k, main_key = Some k → k ∈ dict_keys sources) →
  ∃ k main rep,
    main_key_of sources main_key k ∧ dict_get sources k = Some main ∧
    run_health_check sources main_key = inr rep ∧
    missing_headers rep = find_missing_headers sources ∧
    (rule_count_ok rep = true ↔
       ∀ k' s, (k', s) ∈ sources → k' ≠ k →
               len (dataframe s) = len (dataframe main)) ∧
    exclusives rep =
      (if rule_count_ok rep
       then exclusive_rule_names main (without_key sources k) else ∅) ∧
    mismatches rep =
      (if rule_count_ok rep
       then sync_check main (without_key sources k) else ∅) ∧
    (ok rep = true ↔
       missing_headers rep = ∅ ∧ rule_count_ok rep = true ∧
       exclusives rep = ∅ ∧ mismatches rep = ∅) ∧
    (ok rep = true ↔
       find_missing_headers sources = ∅ ∧
       (∀ k' s, (k', s) ∈ sources → k' ≠ k →
                len (dataframe s) = len (dataframe main)) ∧
       exclusive_rule_names main (without_key sources k) = ∅ ∧
       sync_check main (without_key sources k) = ∅).
Proof.
  intros Hne Hkey.
  destruct (main_source_exists sources main_key Hne Hkey) as (k & main & Hk & Hmain).
  assert ((compare_rule_counts main (without_key sources k)).1 = true ↔
          ∀ k' s, (k', s) ∈ sources → k' ≠ k →
                  len (dataframe s) = len (dataframe main)) as Hcount.
  { rewrite compare_rule_counts_true, Forall_forall. split.
    - intros Hall k' s Hin Hk'. apply (Hall (k', s)). by apply elem_of_without_key.
    - intros Hall [k' s] [Hin Hk']%elem_of_without_key. by apply (Hall k' s). }
  exists k, main. eexists.
  split; [done|]. split; [done|].
  split; [by apply (run_health_check_main sources main_key k main)|].
  simpl. split_and!; [done|done|done|done| |].
  - rewrite !andb_true_iff, !bool_decide_eq_true. tauto.
  - rewrite <- Hcount, !andb_true_iff, !bool_decide_eq_true.
    destruct (compare_rule_counts main (without_key sources k)).1; [tauto|].
    split; [intros [[[_ ?] _] _]; done|intros (_ & ? & _); done].
Qed.

Lemma run_health_check_ok_iff_witness :
  ∃ k main rep,
    main_key_of [("s1", main3); ("s2", other2)] (Some "s2") k ∧
    dict_get [("s1", main3); ("s2", other2)] k = Some main ∧
    run_health_check [("s1", main3); ("s2", other2)] (Some "s2") = inr rep ∧
    missing_headers rep = find_missing_headers [("s1", main3); ("s2", other2)] ∧
    (rule_count_ok rep = true ↔
       ∀ k' s, (k', s) ∈ [("s1", main3); ("s2", other2)] → k' ≠ k →
               len (dataframe s) = len (dataframe main)) ∧
    exclusives rep =
      (if rule_count_ok rep
       then exclusive_rule_names main (without_key [("s1", main3); ("s2", other2)] k)
       else ∅) ∧
    mismatches rep =
      (if rule_count_ok rep
       then sync_check main (without_key [("s1", main3); ("s2", other2)] k) else ∅) ∧
    (ok rep = true ↔
       missing_headers rep = ∅ ∧ rule_count_ok rep = true ∧
       exclusives rep = ∅ ∧ mismatches rep = ∅) ∧
    (ok rep = true ↔
       find_missing_headers [("s1", main3); ("s2", other2)] = ∅ ∧
       (∀ k' s, (k', s) ∈ [("s1", main3); ("s2", other2)] → k' ≠ k →
                len (dataframe s) = len (dataframe main)) ∧
       exclusive_rule_names main (without_key [("s1", main3); ("s2", other2)] k) = ∅ ∧
       sync_check main (without_key [("s1", main3); ("s2", other2)] k) = ∅).
Proof.
  apply (run_health_check_ok_iff [("s1", main3); ("s2", other2)] (Some "s2")).
  - discriminate.
  - intros k [= <-]. apply (bool_decide_unpack _). by vm_compute.
Defined.

(** C2. When some source other than main has a row count different from
    main's, [run_health_check] returns a report with [rule_count_ok] false
    and with empty exclusives and mismatches mappings: the exclusive-rule
    and sync checks are not run. *)
Theorem run_health_check_count_mismatch (sources : dict DataSet)
    (main_key : option string) (k : string) (main : DataSet)
    (k' : string) (s : DataSet) :
  main_key_of sources main_key k → dict_get sources k = Some main →
  (k', s) ∈ sources → k' ≠ k →
  len (dataframe s) ≠ len (dataframe main) →
  ∃ rep, run_health_check sources main_key = inr rep ∧
    rule_count_ok rep = false ∧ exclusives rep = ∅ ∧ mismatches rep = ∅.
Proof.
  intros Hk Hmain Hin Hne Hlen.
  assert (sources ≠ []) as Hsrc by (intros ->; by apply elem_of_nil in Hin).
  assert ((compare_rule_counts main (without_key sources k)).1 = false) as Hfalse.
  { apply (compare_rule_counts_false main _ k' s); [|done].
    by apply elem_of_without_key. }
  eexists. split; [by apply (run_health_check_main sources main_key k main)|].
  simpl. by rewrite Hfalse.
Qed.

Lemma run_health_check_count_mismatch_witness :
  ∃ rep, run_health_check [("s1", main3); ("s3", other3); ("s2", other2)] None = inr rep ∧
    rule_count_ok rep = false ∧ exclusives rep = ∅ ∧ mismatches rep = ∅.
Proof.
  apply (run_health_check_count_mismatch _ None "s1" main3 "s2" other2).
  - reflexivity.
  - reflexivity.
  - set_solver.
  - discriminate.
  - vm_compute. lia.
Defined.

(** C5. [run_health_check] raises the error for empty input exactly when
    the mapping of sources is empty; on the empty mapping it raises it and
    returns no report. *)
Theorem run_health_check_empty_iff (sources : dict DataSet) (main_key : option string) :
  (sources = [] ↔ ∃ msg, run_health_check sources main_key = inl (ValueError msg)) ∧
  (sources = [] ↔
     run_health_check sources main_key = inl (ValueError "No sources uploaded.")).
Proof.
  unfold run_health_check. destruct sources as [|[first s0] sources'].
  - split; (split; [intros _|done]); eauto.
  - split; (split; [done|]).
    + intros [msg Hmsg]. revert Hmsg.
      destruct (dict_get _ _); [|done]. by destruct (compare_rule_counts _ _).
    + destruct (dict_get _ _); [|done]. by destruct (compare_rule_counts _ _).
Qed.

(** C10. On a non-empty mapping of sources, a main key that is supplied
    but is not a key of the mapping makes [run_health_check] fail with a
    [KeyError] on that key: there is no fallback to the first source and no
    report. *)
Theorem run_health_check_unknown_key (sources : dict DataSet) (k : string) :
  sources ≠ [] → k ∉ dict_keys sources →
  run_health_check sources (Some k) = inl (KeyError k).
Proof.
  intros Hne Hk. unfold run_health_check.
  destruct sources as [|[first s0] sources']; [done|].
  simpl default. by rewrite dict_get_None.
Qed.

Lemma run_health_check_unknown_key_witness :
  run_health_check [("s1", main3); ("s2", other2)] (Some "s3") = inl (KeyError "s3").
Proof.
  apply (run_health_check_unknown_key [("s1", main3); ("s2", other2)] "s3").
  - discriminate.
  - apply (bool_decide_unpack _). by vm_compute.
Defined.

(** ** Rule extraction *)

Lemma required_subseteq cols :
  required ⊆ list_to_set cols ↔
  "data_quality_control_name" ∈ cols ∧ "header" ∈ cols.
Proof.
  unfold required.
  by rewrite union_subseteq, !singleton_subseteq_l, !elem_of_list_to_set.
Qed.

Lemma elem_of_required_difference cols c :
  c ∈ required ∖ list_to_set cols ↔
  (c = "data_quality_control_name" ∨ c = "header") ∧ c ∉ cols.
Proof. unfold required. set_solver. Qed.

Lemma sorted_required : Py.sorted required = ["data_quality_control_name"; "header"].
Proof. by vm_compute. Qed.

Lemma index_of_is_Some c cols : c ∈ cols → is_Some (index_of c cols).
Proof.
  induction cols as [|c' cols IH]; simpl.
  - by intros ?%elem_of_nil.
  - intros Hc. case_decide as Heq; [by eexists|].
    apply elem_of_cons in Hc as [->|Hc]; [done|].
    destruct (IH Hc) as [i ->]. by eexists.
Qed.

Lemma rule_of_row_ok df row :
  "data_quality_control_name" ∈ columns df → "header" ∈ columns df →
  ∃ r, rule_of_row df row = inr r.
Proof.
  intros [i Hi]%index_of_is_Some [j Hj]%index_of_is_Some.
  unfold rule_of_row, row_get. rewrite Hi, Hj. by eexists.
Qed.

Lemma rules_of_rows_ok df rs :
  "data_quality_control_name" ∈ columns df → "header" ∈ columns df →
  ∃ rules, rules_of_rows df rs = inr rules ∧
           Forall2 (λ row r, rule_of_row df row = inr r) rs rules.
Proof.
  intros Hn Hh. induction rs as [|row rs (rules & Hrules & Hall)]; simpl.
  - exists []. by split; [|constructor].
  - destruct (rule_of_row_ok df row Hn Hh) as [r Hr]. rewrite Hr, Hrules.
    exists (r :: rules). by split; [|constructor].
Qed.

Lemma sorted_at_most_one (l : list string) a :
  NoDup l → (∀ c, c ∈ l → c = a) → Sorted String.le l.
Proof.
  intros Hnd Hl. destruct l as [|x [|y l]]; [by constructor|by repeat constructor|].
  exfalso. apply NoDup_cons in Hnd as [Hx _]. apply Hx.
  rewrite (Hl x), (Hl y); [by left| |]; set_solver.
Qed.

(** C4, as the code has it. On a table lacking a required column, rule
    extraction raises a [ValueError] and returns no rule; its message
    lists every missing required column once, in the iteration order of
    the set of missing columns (which is sorted when a single column is
    missing), and then the required columns in sorted order. On a table
    with pairwise distinct column labels that has both required columns it
    returns one rule per row, in row order. *)
Theorem rules_from_df_spec (ord : SetOrder) (df : DataFrame) :
  (¬ ("data_quality_control_name" ∈ columns df ∧ "header" ∈ columns df) →
   ∃ missing,
     rules_from_df ord df =
       inl (ValueError ("Rules sheet missing columns: " +:+ Py.repr_list missing +:+
                        ". Expected: ['data_quality_control_name', 'header']")) ∧
     NoDup missing ∧
     (∀ c, c ∈ missing ↔
           (c = "data_quality_control_name" ∨ c = "header") ∧ c ∉ columns df) ∧
     ("data_quality_control_name" ∈ columns df ∨ "header" ∈ columns df →
      Sorted String.le missing)) ∧
  (NoDup (columns df) →
   "data_quality_control_name" ∈ columns df ∧ "header" ∈ columns df →
   ∃ rules,
     rules_from_df ord df = inr rules ∧
     length rules = length (rows df) ∧
     Forall2 (λ row r, rule_of_row df row = inr r) (rows df) rules).
Proof.
  unfold rules_from_df. split.
  - intros Hmiss. rewrite decide_False by (by rewrite required_subseteq).
    set (X := required ∖ list_to_set (columns df)).
    assert (∀ c, c ∈ list_of_set ord X ↔
                 (c = "data_quality_control_name" ∨ c = "header") ∧ c ∉ columns df)
      as Hmem.
    { intros c. rewrite (list_of_set_perm ord X), elem_of_elements.
      apply elem_of_required_difference. }
    assert (NoDup (list_of_set ord X)) as Hnd.
    { rewrite (list_of_set_perm ord X). apply NoDup_elements. }
    exists (list_of_set ord X). split_and!; [|done|done|].
    + unfold missing_columns_msg. by rewrite sorted_required.
    + intros [Hn|Hh].
      * apply sorted_at_most_one with "header"; [done|].
        intros c [[->| ->] Hc]%Hmem; done.
      * apply sorted_at_most_one with "data_quality_control_name"; [done|].
        intros c [[->| ->] Hc]%Hmem; done.
  - intros _ [Hn Hh]. rewrite decide_True by (by rewrite required_subseteq).
    destruct (rules_of_rows_ok df (rows df) Hn Hh) as (rules & Hrules & Hall).
    exists rules. split_and!; [done| |done].
    symmetry. by eapply Forall2_length.
Qed.

(** C4, as the specification words it, fails: when both required columns
    are missing and the set of missing columns is iterated in decreasing
    order, the error lists "header" before "data_quality_control_name". *)
Lemma rules_from_df_missing_unsorted :
  rules_from_df reverse_order foreign_sheet =
    inl (ValueError ("Rules sheet missing columns: " +:+
                     "['header', 'data_quality_control_name']" +:+
                     ". Expected: ['data_quality_control_name', 'header']")) ∧
  spec_missing_columns foreign_sheet = ["data_quality_control_name"; "header"] ∧
  rules_from_df reverse_order foreign_sheet ≠
    inl (ValueError (missing_columns_msg (spec_missing_columns foreign_sheet))).
Proof. split_and!; [by vm_compute|by vm_compute|]. by vm_compute. Qed.

Lemma rules_from_df_spec_witness :
  (∃ missing,
     rules_from_df sorted_order headerless_sheet =
       inl (ValueError ("Rules sheet missing columns: " +:+ Py.repr_list missing +:+
                        ". Expected: ['data_quality_control_name', 'header']")) ∧
     NoDup missing ∧
     (∀ c, c ∈ missing ↔
           (c = "data_quality_control_name" ∨ c = "header") ∧
           c ∉ columns headerless_sheet) ∧
     ("data_quality_control_name" ∈ columns headerless_sheet ∨
      "header" ∈ columns headerless_sheet →
      Sorted String.le missing)) ∧
  (∃ rules,
     rules_from_df reverse_order mixed_sheet = inr rules ∧
     length rules = length (rows mixed_sheet) ∧
     Forall2 (λ row r, rule_of_row mixed_sheet row = inr r) (rows mixed_sheet) rules).
Proof.
  split.
  - apply (proj1 (rules_from_df_spec sorted_order headerless_sheet)).
    simpl. intros [_ Hh]. revert Hh. apply (bool_decide_unpack _). by vm_compute.
  - apply (proj2 (rules_from_df_spec reverse_order mixed_sheet)).
    + apply (bool_decide_unpack _). by vm_compute.
    + split; apply (bool_decide_unpack _); by vm_compute.
Defined.

Example rules_from_df_mixed :
  rules_from_df sorted_order mixed_sheet =
    inr [ {| data_quality_control_name := "Check A"; header := "col1,col2" |};
          {| data_quality_control_name := "7"; header := "" |};
          {| data_quality_control_name := "nan"; header := "col3" |} ].
Proof. by vm_compute. Qed.

Example rules_from_df_headerless :
  rules_from_df sorted_order headerless_sheet =
    inl (ValueError "Rules sheet missing columns: ['header']. Expected: ['data_quality_control_name', 'header']").
Proof. by vm_compute. Qed.

(** ** Loops that store one entry per source *)

Section overwrite.
Context {V : Type} (step : gmap string V → string * DataSet → gmap string V).
Context (entry : DataSet → option V).
Hypothesis step_entry : ∀ acc kv,
  step acc kv = match entry kv.2 with
                | Some v => <[name kv.2 := v]> acc
                | None => acc
                end.

Lemma foldl_overwrite_other (l : dict DataSet) acc nm :
  nm ∉ display_names l → foldl step acc l !! nm = acc !! nm.
Proof using step_entry.
  revert acc. induction l as [|[k s] l IH]; intros acc; simpl; [done|].
  rewrite not_elem_of_cons. intros [Hnm Hl]. rewrite IH by done.
  rewrite step_entry. simpl. destruct (entry s); [|done].
  by rewrite lookup_insert_ne.
Qed.

Lemma foldl_overwrite_lookup (l : dict DataSet) acc k s :
  NoDup (display_names l) → (k, s) ∈ l →
  foldl step acc l !! name s =
    match entry s with Some v => Some v | None => acc !! name s end.
Proof using step_entry.
  revert acc. induction l as [|[k0 s0] l IH]; intros acc Hnd Hin.
  { by apply elem_of_nil in Hin. }
  simpl in Hnd. apply NoDup_cons in Hnd as [Hfresh Hnd].
  apply elem_of_cons in Hin as [[= -> ->]|Hin]; simpl.
  - rewrite foldl_overwrite_other by done. rewrite step_entry. simpl.
    destruct (entry s0); [|done]. by rewrite lookup_insert_eq.
  - rewrite IH by done. destruct (entry s) as [v|]; [done|].
    rewrite step_entry. simpl. destruct (entry s0); [|done].
    rewrite lookup_insert_ne; [done|].
    intros Heq. apply Hfresh. rewrite Heq.
    unfold display_names. apply list_elem_of_fmap. by exists (k, s).
Qed.
End overwrite.

(** ** Missing headers *)

Lemma missing_step_spec src acc l :
  foldl (missing_step src) acc l =
  acc ++ (fst <$> filter (λ fm, header_missing src fm.2) l).
Proof.
  revert acc. induction l as [|[f meta] l IH]; intros acc; simpl.
  - by rewrite app_nil_r.
  - rewrite IH, filter_cons. simpl.
    destruct (decide (header_missing src meta)) as [Hm|Hm];
      unfold header_missing in Hm; revert Hm;
      destruct (dict_get meta "header") as [h|]; intros Hm;
      repeat case_decide; simpl; rewrite <- ?app_assoc; tauto.
Qed.

Lemma missing_of_spec src : missing_of src = spec_missing_fields src.
Proof. unfold missing_of. by rewrite missing_step_spec. Qed.

Lemma missing_headers_step_entry acc kv :
  missing_headers_step acc kv =
    match (match missing_of kv.2 with [] => None | l => Some l end) with
    | Some v => <[name kv.2 := v]> acc
    | None => acc
    end.
Proof. destruct kv as [k s]. simpl. by destruct (missing_of s). Qed.

(** C8, as the code has it. When the display names of the sources are
    pairwise distinct, the entry of a source in the result of
    [find_missing_headers] lists, in the order of its [fields], exactly the
    declared fields whose expected header is absent, empty or not a column
    label of its table (by exact string match); a source with no such
    field has no entry. *)
Theorem find_missing_headers_spec (sources : dict DataSet) (k : string) (src : DataSet) :
  NoDup (display_names sources) → (k, src) ∈ sources →
  ∃ missing,
    (∀ f, f ∈ missing ↔
          ∃ meta, (f, meta) ∈ fields src ∧
                  (dict_get meta "header" = None ∨ dict_get meta "header" = Some "" ∨
                   ∃ h, dict_get meta "header" = Some h ∧ h ∉ columns (dataframe src))) ∧
    missing = spec_missing_fields src ∧
    find_missing_headers sources !! name src =
      if decide (missing = []) then None else Some missing.
Proof.
  intros Hnd Hin. exists (spec_missing_fields src). split_and!; [|done|].
  - intros f. unfold spec_missing_fields. rewrite list_elem_of_fmap. split.
    + intros ([f' meta] & -> & [Hm Hf]%list_elem_of_filter). simpl in *.
      exists meta. split; [done|]. unfold header_missing in Hm.
      destruct (dict_get meta "header") as [h|]; [|by left].
      destruct Hm as [->|Hh]; [by right; left|]. right; right. by exists h.
    + intros (meta & Hf & Hm). exists (f, meta). split; [done|].
      apply list_elem_of_filter. split; [|done]. simpl. unfold header_missing.
      destruct Hm as [->|[->|(h & -> & Hh)]]; [done|by left|by right].
  - unfold find_missing_headers.
    rewrite (foldl_overwrite_lookup missing_headers_step
               (λ s, match missing_of s with [] => None | l => Some l end)
               missing_headers_step_entry sources ∅ k src Hnd Hin).
    rewrite missing_of_spec, lookup_empty.
    by destruct (spec_missing_fields src).
Qed.

(** C8, as the specification words it, fails when two sources bear the
    same display name: the second upload has no missing field, yet the
    result has an entry under its name, left there by the first. *)
Lemma find_missing_headers_same_name :
  ("s2", upload_b) ∈ [("s1", upload_a); ("s2", upload_b)] ∧
  spec_missing_fields upload_b = [] ∧
  find_missing_headers [("s1", upload_a); ("s2", upload_b)] !! name upload_b =
    Some ["owner"].
Proof. split_and!; [set_solver|by vm_compute|by vm_compute]. Qed.

Lemma find_missing_headers_spec_witness :
  ∃ missing,
    (∀ f, f ∈ missing ↔
          ∃ meta, (f, meta) ∈ fields upload_a ∧
                  (dict_get meta "header" = None ∨ dict_get meta "header" = Some "" ∨
                   ∃ h, dict_get meta "header" = Some h ∧
                        h ∉ columns (dataframe upload_a))) ∧
    missing = spec_missing_fields upload_a ∧
    find_missing_headers [("s1", upload_a); ("s2", other2)] !! name upload_a =
      if decide (missing = []) then None else Some missing.
Proof.
  apply (find_missing_headers_spec [("s1", upload_a); ("s2", other2)] "s1" upload_a).
  - apply (bool_decide_unpack _). by vm_compute.
  - set_solver.
Defined.

Example find_missing_headers_ex :
  find_missing_headers [("s1", upload_a); ("s2", other2)] = {["rules.xlsx" := ["owner"]]}.
Proof. by vm_compute. Qed.

(** ** Exclusive rules *)

Lemma sorted_Sorted X : Sorted String.le (Py.sorted X).
Proof. apply (Sorted_merge_sort String.le). Qed.

Lemma sorted_Permutation X : Py.sorted X ≡ₚ elements X.
Proof. apply (merge_sort_Permutation String.le). Qed.

Lemma sorted_NoDup X : NoDup (Py.sorted X).
Proof. rewrite sorted_Permutation. apply NoDup_elements. Qed.

Lemma elem_of_sorted x X : x ∈ Py.sorted X ↔ x ∈ X.
Proof. by rewrite sorted_Permutation, elem_of_elements. Qed.

Lemma sorted_nil X : Py.sorted X = [] ↔ X = ∅.
Proof.
  split.
  - intros Hnil. apply set_eq. intros x.
    rewrite <- elem_of_sorted, Hnil. set_solver.
  - by intros ->.
Qed.

Lemma exclusive_step_entry main_names acc kv :
  exclusive_step main_names acc kv =
    match (if decide (rule_names kv.2 ∖ main_names = ∅) then None
           else Some (Py.sorted (rule_names kv.2 ∖ main_names))) with
    | Some v => <[name kv.2 := v]> acc
    | None => acc
    end.
Proof. destruct kv as [k s]. simpl. by case_decide. Qed.

(** C6, as the code has it. When the display names of the other sources
    are pairwise distinct, [exclusive_rule_names] maps the display name of
    each other source to the normalized rule names that the source has
    and main has not, each once and in increasing lexicographic order; a
    source that has no such name has no entry. *)
Theorem exclusive_rule_names_spec (main : DataSet) (others : dict DataSet)
    (k : string) (s : DataSet) :
  NoDup (display_names others) → (k, s) ∈ others →
  ∃ l,
    Sorted String.le l ∧ NoDup l ∧
    (∀ x, x ∈ l ↔ x ∈ rule_names s ∧ x ∉ rule_names main) ∧
    exclusive_rule_names main others !! name s =
      if decide (l = []) then None else Some l.
Proof.
  intros Hnd Hin. exists (Py.sorted (rule_names s ∖ rule_names main)).
  split_and!.
  - apply sorted_Sorted.
  - apply sorted_NoDup.
  - intros x. rewrite elem_of_sorted. set_solver.
  - unfold exclusive_rule_names.
    rewrite (foldl_overwrite_lookup (exclusive_step (rule_names main))
               (λ s, if decide (rule_names s ∖ rule_names main = ∅) then None
                     else Some (Py.sorted (rule_names s ∖ rule_names main)))
               (exclusive_step_entry (rule_names main)) others ∅ k s Hnd Hin).
    rewrite lookup_empty.
    destruct (decide (rule_names s ∖ rule_names main = ∅)) as [He|He].
    + by rewrite decide_True by (by apply sorted_nil).
    + by rewrite decide_False by (by rewrite sorted_nil).
Qed.

(** C6, as the specification words it, fails when two other sources bear
    the same display name: the second upload has no rule that main lacks,
    yet the result has an entry under its name, left there by the first. *)
Lemma exclusive_rule_names_same_name :
  ("s3", upload_b) ∈ [("s2", upload_a); ("s3", upload_b)] ∧
  rule_names upload_b ∖ rule_names main3 = ∅ ∧
  exclusive_rule_names main3 [("s2", upload_a); ("s3", upload_b)] !! name upload_b =
    Some ["check z"].
Proof. split_and!; [set_solver|by vm_compute|by vm_compute]. Qed.

Lemma exclusive_rule_names_spec_witness :
  ∃ l,
    Sorted String.le l ∧ NoDup l ∧
    (∀ x, x ∈ l ↔ x ∈ rule_names other3 ∧ x ∉ rule_names main3) ∧
    exclusive_rule_names main3 [("s2", upload_b); ("s3", other3)] !! name other3 =
      if decide (l = []) then None else Some l.
Proof.
  apply (exclusive_rule_names_spec main3 [("s2", upload_b); ("s3", other3)] "s3" other3).
  - apply (bool_decide_unpack _). by vm_compute.
  - set_solver.
Defined.

Example exclusive_rule_names_ex :
  exclusive_rule_names main3 [("s2", upload_b); ("s3", other3); ("s4", other2)] =
    {["third.xlsx" := ["x"]; "other.xlsx" := ["x"]]}.
Proof. by vm_compute. Qed.

(** ** Sync check *)

Lemma rule_by_name_foldl (l : list DataQualityRule)
    (acc : gmap string DataQualityRule) (n : string) :
  foldl (λ m r, <[normalized_name r := r]> m) acc l !! n =
    match last (filter (λ r, normalized_name r = n) l) with
    | Some r => Some r
    | None => acc !! n
    end.
Proof.
  revert acc. induction l as [|r l IH]; intros acc; simpl; [done|].
  rewrite IH, filter_cons. case_decide as Hn.
  - rewrite last_cons. destruct (last (filter _ l)); [done|].
    subst n. by rewrite lookup_insert_eq.
  - destruct (last (filter _ l)); [done|]. by rewrite lookup_insert_ne.
Qed.

Lemma rule_by_name_lookup main n : rule_by_name main !! n = main_rule main n.
Proof.
  unfold rule_by_name, main_rule. rewrite rule_by_name_foldl, lookup_empty.
  by destruct (last _).
Qed.

Lemma setdefault_append_lookup k x m nm :
  default [] (setdefault_append k x m !! nm) =
  default [] (m !! nm) ++ (if decide (k = nm) then [x] else []).
Proof.
  unfold setdefault_append. case_decide as Hk.
  - subst. by rewrite lookup_insert_eq.
  - by rewrite lookup_insert_ne, app_nil_r.
Qed.

Lemma setdefault_append_no_empty k x m :
  no_empty_entry m → no_empty_entry (setdefault_append k x m).
Proof.
  intros Hm k'. unfold setdefault_append.
  destruct (decide (k = k')) as [->|Hk].
  - rewrite lookup_insert_eq. intros [= Heq]. by destruct (default [] (m !! k')).
  - by rewrite lookup_insert_ne.
Qed.

Lemma sync_rule_lookup main s m r nm :
  default [] (sync_rule (rule_by_name main) s m r !! nm) =
  default [] (m !! nm) ++
    (if decide (name s = nm)
     then data_quality_control_name <$> filter (is_mismatch main) [r]
     else []).
Proof.
  unfold sync_rule. rewrite filter_cons, filter_nil.
  destruct (decide (is_mismatch main r)) as [Hm|Hm];
    unfold is_mismatch in Hm; rewrite <- rule_by_name_lookup in Hm; revert Hm;
    destruct (rule_by_name main !! normalized_name r) as [mr|]; intros Hm;
    repeat case_decide; rewrite ?setdefault_append_lookup, ?decide_True, ?decide_False by done;
    rewrite ?app_nil_r; done.
Qed.

Lemma sync_rule_no_empty idx s m r :
  no_empty_entry m → no_empty_entry (sync_rule idx s m r).
Proof.
  intros Hm. unfold sync_rule. destruct (idx !! normalized_name r); [|done].
  case_decide; [|done]. by apply setdefault_append_no_empty.
Qed.

Lemma sync_rules_lookup main s rules m nm :
  default [] (foldl (sync_rule (rule_by_name main) s) m rules !! nm) =
  default [] (m !! nm) ++
    (if decide (name s = nm)
     then data_quality_control_name <$> filter (is_mismatch main) rules
     else []).
Proof.
  revert m. induction rules as [|r rules IH]; intros m; simpl.
  - by case_decide; rewrite app_nil_r.
  - rewrite IH, sync_rule_lookup, <- app_assoc. f_equal.
    case_decide; [|done].
    by rewrite <- fmap_app, <- filter_app.
Qed.

Lemma sync_rules_no_empty idx s rules m :
  no_empty_entry m → no_empty_entry (foldl (sync_rule idx s) m rules).
Proof.
  revert m. induction rules as [|r rules IH]; intros m Hm; simpl; [done|].
  by apply IH, sync_rule_no_empty.
Qed.

Lemma sync_sources_lookup main others m nm :
  default [] (foldl (sync_source (rule_by_name main)) m others !! nm) =
  default [] (m !! nm) ++ spec_mismatches main nm others.
Proof.
  unfold spec_mismatches.
  revert m. induction others as [|[k s] others IH]; intros m.
  - simpl. by rewrite app_nil_r.
  - rewrite bind_cons, app_assoc. simpl snd.
    rewrite <- (sync_rules_lookup main s (dq_rules s) m nm). apply IH.
Qed.

Lemma sync_sources_no_empty idx others m :
  no_empty_entry m → no_empty_entry (foldl (sync_source idx) m others).
Proof.
  revert m. induction others as [|[k s] others IH]; intros m Hm; simpl; [done|].
  by apply IH, sync_rules_no_empty.
Qed.

(** C7, as the code has it. For every display name, the mismatch list
    that [sync_check] keeps under it holds the original names of the rules
    of the other sources bearing that name for which main's by-name mapping
    (the last rule of main with the same normalized name) holds a rule with
    a different [header_set], in the iteration order of the sources and of
    their rules; a rule whose normalized name main's by-name mapping lacks
    is skipped, and a name with no such rule has no entry. *)
Theorem sync_check_spec (main : DataSet) (others : dict DataSet) (nm : string) :
  sync_check main others !! nm =
    if decide (spec_mismatches main nm others = []) then None
    else Some (spec_mismatches main nm others).
Proof.
  pose proof (sync_sources_lookup main others ∅ nm) as Hl.
  pose proof (sync_sources_no_empty (rule_by_name main) others ∅) as Hne.
  unfold sync_check. rewrite lookup_empty in Hl. simpl in Hl. rewrite <- Hl.
  specialize (Hne ltac:(by intros k'; rewrite lookup_empty) nm).
  destruct (foldl _ _ _ !! nm) as [[|x l]|]; done.
Qed.

(** C7, as the specification words it, fails when main has two rules of
    the same normalized name: main contains the rule ("X", "a"), whose
    header set differs from that of the other source's rule ("X", "b"),
    yet nothing is recorded, because main's by-name mapping holds the later
    rule ("x", "b"). *)
Lemma sync_check_shadowed_rule :
  {| data_quality_control_name := "X"; header := "b" |} ∈ dq_rules other_x ∧
  (∃ mr, mr ∈ dq_rules main_dup ∧
         normalized_name mr =
           normalized_name {| data_quality_control_name := "X"; header := "b" |} ∧
         header_set mr ≠
           header_set {| data_quality_control_name := "X"; header := "b" |}) ∧
  sync_check main_dup [("s2", other_x)] !! name other_x = None.
Proof.
  split_and!.
  - set_solver.
  - exists {| data_quality_control_name := "X"; header := "a" |}.
    split_and!; [set_solver|by vm_compute|].
    apply (bool_decide_unpack _). by vm_compute.
  - by vm_compute.
Qed.

Example sync_check_ex :
  sync_check main3 [("s3", other3); ("s2", other2)] = {["third.xlsx" := ["check b"]]}.
Proof. by vm_compute. Qed.

Example sync_check_same_name_ex :
  sync_check main_dup
    [("s2", source_of_sheet "copy.xlsx" [("X", "a"); ("y", "b")]);
     ("s3", source_of_sheet "copy.xlsx" [(" x ", "c"); ("X", "B")])] =
    {["copy.xlsx" := ["X"; " x "]]}.
Proof. by vm_compute. Qed.

(** ** Header sets: the example of the specification *)


(** * Further properties of the code *)

(** ** Normalization of names and header tokens *)

Lemma lstrip_idemp l : Py.lstrip_chars (Py.lstrip_chars l) = Py.lstrip_chars l.
Proof.
  induction l as [|c l IH]; simpl; [done|].
  destruct (Py.isspace c) eqn:Hc; [done|]. simpl. by rewrite Hc.
Qed.

Lemma rstrip_idemp l : Py.rstrip_chars (Py.rstrip_chars l) = Py.rstrip_chars l.
Proof. unfold Py.rstrip_chars. by rewrite reverse_involutive, lstrip_idemp. Qed.

Lemma lstrip_snoc l c :
  Py.isspace c = false → Py.lstrip_chars (l ++ [c]) = Py.lstrip_chars l ++ [c].
Proof.
  intros Hc. induction l as [|c' l IH]; simpl; [by rewrite Hc|].
  by destruct (Py.isspace c').
Qed.

Lemma rstrip_cons c l :
  Py.isspace c = false → Py.rstrip_chars (c :: l) = c :: Py.rstrip_chars l.
Proof.
  intros Hc. unfold Py.rstrip_chars.
  by rewrite reverse_cons, lstrip_snoc, reverse_snoc.
Qed.

Lemma lstrip_rstrip l :
  Py.lstrip_chars l = l → Py.lstrip_chars (Py.rstrip_chars l) = Py.rstrip_chars l.
Proof.
  destruct l as [|c l]; [done|]. simpl.
  destruct (Py.isspace c) eqn:Hc.
  - intros Heq. exfalso.
    assert (length (Py.lstrip_chars l) ≤ length l) as Hlen.
    { clear. induction l as [|c l IH]; simpl; [done|]. destruct (Py.isspace c); simpl; lia. }
    rewrite Heq in Hlen. simpl in Hlen. lia.
  - intros _. rewrite rstrip_cons by done. simpl. by rewrite Hc.
Qed.

Lemma strip_chars_idemp l :
  Py.rstrip_chars (Py.lstrip_chars (Py.rstrip_chars (Py.lstrip_chars l))) =
  Py.rstrip_chars (Py.lstrip_chars l).
Proof. by rewrite lstrip_rstrip, rstrip_idemp by apply lstrip_idemp. Qed.

Lemma strip_idemp s : Py.strip (Py.strip s) = Py.strip s.
Proof.
  unfold Py.strip, Py.chars, Py.str_of.
  rewrite String.list_ascii_of_string_of_list_ascii. by rewrite strip_chars_idemp.
Qed.

Lemma lower_char_idemp c : Py.lower_char (Py.lower_char c) = Py.lower_char c.
Proof. by destruct c as [[] [] [] [] [] [] [] []]; vm_compute. Qed.

Lemma lower_char_isspace c : Py.isspace (Py.lower_char c) = Py.isspace c.
Proof. by destruct c as [[] [] [] [] [] [] [] []]; vm_compute. Qed.

Lemma lower_idemp s : Py.lower (Py.lower s) = Py.lower s.
Proof. induction s as [|c s IH]; simpl; [done|]. by rewrite lower_char_idemp, IH. Qed.

Lemma lower_str_of l : Py.lower (Py.str_of l) = Py.str_of (Py.lower_char <$> l).
Proof. induction l as [|c l IH]; simpl; [done|]. by rewrite IH. Qed.

Lemma chars_lower s : Py.chars (Py.lower s) = Py.lower_char <$> Py.chars s.
Proof. induction s as [|c s IH]; simpl; [done|]. by rewrite IH. Qed.

Lemma lstrip_lower l :
  Py.lstrip_chars (Py.lower_char <$> l) = Py.lower_char <$> Py.lstrip_chars l.
Proof.
  induction l as [|c l IH]; simpl; [done|].
  rewrite lower_char_isspace. by destruct (Py.isspace c).
Qed.

Lemma rstrip_lower l :
  Py.rstrip_chars (Py.lower_char <$> l) = Py.lower_char <$> Py.rstrip_chars l.
Proof.
  unfold Py.rstrip_chars. by rewrite <- fmap_reverse, lstrip_lower, fmap_reverse.
Qed.

Lemma strip_lower s : Py.strip (Py.lower s) = Py.lower (Py.strip s).
Proof.
  unfold Py.strip. by rewrite chars_lower, lstrip_lower, rstrip_lower, lower_str_of.
Qed.

(** X1. [normalized_name] is idempotent: a rule whose name is an already
    normalized name has that same name as its normalized name. *)
Theorem normalized_name_idempotent (r : DataQualityRule) (h : string) :
  normalized_name {| data_quality_control_name := normalized_name r; header := h |} =
  normalized_name r.
Proof.
  unfold normalized_name. simpl.
  by rewrite strip_lower, strip_idemp, lower_idemp.
Qed.


(** ** The elements of a header set *)

Lemma split_comma_pieces s : Forall comma_free (Py.split_comma s).
Proof.
  induction s as [|c s IH]; simpl.
  - repeat constructor. unfold comma_free. simpl. apply not_elem_of_nil.
  - case_decide as Hc.
    + constructor; [|done]. unfold comma_free. simpl. apply not_elem_of_nil.
    + destruct (Py.split_comma s) as [|t ts].
      * repeat constructor. apply comma_free_cons. split; [done|].
        unfold comma_free. simpl. apply not_elem_of_nil.
      * apply Forall_cons in IH as [Ht Hts]. constructor; [|done].
        by apply comma_free_cons.
Qed.


Lemma elem_of_lstrip c l : c ∈ Py.lstrip_chars l → c ∈ l.
Proof.
  induction l as [|c' l IH]; simpl; [done|].
  destruct (Py.isspace c'); [|done]. intros Hc. right. by apply IH.
Qed.

Lemma elem_of_rstrip c l : c ∈ Py.rstrip_chars l → c ∈ l.
Proof.
  unfold Py.rstrip_chars. rewrite elem_of_reverse. intros Hc%elem_of_lstrip.
  by apply elem_of_reverse.
Qed.

Lemma chars_strip s :
  Py.chars (Py.strip s) = Py.rstrip_chars (Py.lstrip_chars (Py.chars s)).
Proof. unfold Py.strip, Py.chars, Py.str_of. apply String.list_ascii_of_string_of_list_ascii. Qed.

Lemma comma_free_strip s : comma_free s → comma_free (Py.strip s).
Proof.
  unfold comma_free. rewrite chars_strip. intros Hs Hc. apply Hs.
  by apply elem_of_lstrip, elem_of_rstrip.
Qed.

Lemma lower_char_comma c : Py.lower_char c = ","%char → c = ","%char.
Proof. by destruct c as [[] [] [] [] [] [] [] []]; vm_compute. Qed.

Lemma comma_free_lower s : comma_free s → comma_free (Py.lower s).
Proof.
  unfold comma_free. rewrite chars_lower. intros Hs Hc. apply Hs.
  apply list_elem_of_fmap in Hc as (c & Hc & Hin).
  symmetry in Hc. apply lower_char_comma in Hc. by subst.
Qed.

(** X3. Every element of a header set is normalized: it is not empty,
    it holds no comma, and [strip] and [lower] leave it unchanged. *)
Theorem header_set_elements (r : DataQualityRule) (x : string) :
  x ∈ header_set r →
  x ≠ "" ∧ comma_free x ∧ Py.strip x = x ∧ Py.lower x = x.
Proof.
  unfold header_set. case_decide as Hh; [by intros ?%not_elem_of_empty|].
  rewrite elem_of_list_to_set, list_elem_of_fmap.
  intros (h & -> & [Hne Hin]%list_elem_of_filter). split_and!.
  - by rewrite lower_empty.
  - apply comma_free_lower, comma_free_strip.
    pose proof (split_comma_pieces (header r)) as Hall.
    rewrite Forall_forall in Hall. by apply Hall.
  - by rewrite strip_lower, strip_idemp.
  - apply lower_idemp.
Qed.

Lemma header_set_elements_witness :
  "a" ≠ "" ∧ comma_free "a" ∧ Py.strip "a" = "a" ∧ Py.lower "a" = "a".
Proof.
  apply (header_set_elements {| data_quality_control_name := "r"; header := " A, b" |} "a").
  apply (bool_decide_unpack _). by vm_compute.
Defined.

(** ** Blank headers *)

Lemma lstrip_nil_iff l : Py.lstrip_chars l = [] ↔ Forall (λ c, Py.isspace c = true) l.
Proof.
  split; [|apply lstrip_all_space].
  induction l as [|c l IH]; simpl; [by constructor|].
  destruct (Py.isspace c) eqn:Hc; [|done]. intros Hl. constructor; auto.
Qed.

Lemma rstrip_nil_iff l : Py.rstrip_chars l = [] ↔ Forall (λ c, Py.isspace c = true) l.
Proof.
  unfold Py.rstrip_chars. rewrite <- (reverse_involutive []) at 1.
  split.
  - intros Hl%(inj reverse)%lstrip_nil_iff.
    rewrite <- (reverse_involutive l). by apply Forall_reverse.
  - intros Hl. f_equal. apply lstrip_nil_iff. by apply Forall_reverse.
Qed.

Lemma lstrip_space_or_kept l :
  Forall (λ c, Py.isspace c = true) (Py.lstrip_chars l) →
  Forall (λ c, Py.isspace c = true) l.
Proof.
  induction l as [|c l IH]; simpl; [done|].
  destruct (Py.isspace c) eqn:Hc; [|done]. intros Hl. constructor; auto.
Qed.

Lemma strip_empty_iff s : Py.strip s = "" ↔ all_space s.
Proof.
  unfold all_space. split.
  - intros Hs. apply lstrip_space_or_kept, rstrip_nil_iff.
    rewrite <- chars_strip. by rewrite Hs.
  - intros Hs. unfold Py.strip. by rewrite lstrip_all_space.
Qed.

Lemma all_space_cons c s : all_space (String c s) ↔ Py.isspace c = true ∧ all_space s.
Proof. unfold all_space. simpl. apply (Forall_cons (λ a, Py.isspace a = true)). Qed.

Lemma split_comma_all_space s :
  Forall all_space (Py.split_comma s) ↔
  Forall (λ c, Py.isspace c = true ∨ c = ","%char) (Py.chars s).
Proof.
  induction s as [|c s IH]; simpl.
  - split; intros _; repeat constructor.
  - rewrite Forall_cons, <- IH. case_decide as Hc.
    + rewrite Forall_cons. subst c. split.
      * intros [_ Hs]. split; [by right|done].
      * intros [_ Hs]. split; [constructor|done].
    + pose proof (split_comma_nonempty s) as Hne.
      destruct (Py.split_comma s) as [|t ts]; [done|].
      rewrite !Forall_cons, all_space_cons. split.
      * intros [[Hsp Ht] Hts]. split; [by left|done].
      * intros [[Hsp|Hco] [Ht Hts]]; done.
Qed.

Lemma list_to_set_empty_iff (l : list string) : list_to_set l =@{gset string} ∅ ↔ l = [].
Proof.
  split; [|by intros ->].
  destruct l as [|x l]; [done|]. intros Hl. exfalso.
  apply (not_elem_of_empty (C := gset string) x). rewrite <- Hl.
  apply elem_of_list_to_set. by left.
Qed.

Lemma filter_nil_Forall {A} (P : A → Prop) `{∀ x, Decision (P x)} (l : list A) :
  filter P l = [] ↔ Forall (λ x, ¬ P x) l.
Proof.
  induction l as [|x l IH]; [by split; [constructor|]|].
  rewrite filter_cons, Forall_cons. case_decide; [|tauto].
  split; [done|]. by intros [? _].
Qed.

(** X4. A header made of whitespace and commas only (the empty header
    included) has an empty header set; and an ASCII header that has an
    empty header set is made of whitespace and commas only. *)
Theorem header_set_empty_iff (r : DataQualityRule) :
  (Forall (λ c, Py.isspace c = true ∨ c = ","%char) (Py.chars (header r)) →
   header_set r = ∅) ∧
  (is_ascii (header r) → header_set r = ∅ →
   Forall (λ c, Py.isspace c = true ∨ c = ","%char) (Py.chars (header r))).
Proof.
  rewrite <- split_comma_all_space. unfold header_set. case_decide as Hh.
  - rewrite Hh. simpl. split; [done|]. intros _ _. by repeat constructor.
  - rewrite list_to_set_empty_iff. split.
    + intros Hall.
      assert (filter (λ h, Py.strip h ≠ "") (Py.split_comma (header r)) = []) as ->; [|done].
      apply filter_nil_Forall. eapply Forall_impl; [exact Hall|]. simpl.
      intros h Hs%strip_empty_iff. by intros ?.
    + intros _ Hl%fmap_nil_inv%filter_nil_Forall.
      eapply Forall_impl; [exact Hl|]. simpl. intros h Hs.
      apply strip_empty_iff. by destruct (decide (Py.strip h = "")).
Qed.

Lemma header_set_empty_iff_witness :
  header_set {| data_quality_control_name := "r"; header := " , ," |} = ∅ ∧
  Forall (λ c, Py.isspace c = true ∨ c = ","%char) (Py.chars "	,,").
Proof.
  split.
  - apply (proj1 (header_set_empty_iff
                    {| data_quality_control_name := "r"; header := " , ," |})).
    simpl. repeat constructor; done.
  - apply (proj2 (header_set_empty_iff
                    {| data_quality_control_name := "r"; header := "	,," |})).
    + unfold is_ascii. apply (bool_decide_unpack _). by vm_compute.
    + by vm_compute.
Defined.

(** ** The by-name mapping of a source *)

Lemma elem_of_rule_names s n :
  n ∈ rule_names s ↔ ∃ r, r ∈ dq_rules s ∧ normalized_name r = n.
Proof.
  unfold rule_names. rewrite elem_of_list_to_set, list_elem_of_fmap.
  split; intros (r & ? & ?); by exists r.
Qed.

(** X5. The by-name mapping of a source maps a normalized name to a rule
    of the source that has this normalized name, and to the last one of
    them; it has no entry exactly for the names that are not in
    [rule_names]. *)
Theorem rule_by_name_spec (s : DataSet) (n : string) :
  (∀ r, rule_by_name s !! n = Some r → r ∈ dq_rules s ∧ normalized_name r = n) ∧
  (∀ l1 r l2,
     dq_rules s = l1 ++ r :: l2 → normalized_name r = n →
     (∀ r', r' ∈ l2 → normalized_name r' ≠ n) →
     rule_by_name s !! n = Some r) ∧
  (rule_by_name s !! n = None ↔ n ∉ rule_names s).
Proof.
  rewrite rule_by_name_lookup. unfold main_rule. split_and!.
  - intros r Hr%last_Some_elem_of. by apply list_elem_of_filter in Hr as [? ?].
  - intros l1 r l2 -> Hn Hl2. rewrite filter_app, filter_cons, decide_True by done.
    assert (filter (λ r0, normalized_name r0 = n) l2 = []) as ->.
    { apply filter_nil_Forall, Forall_forall. intros r' Hr'. by apply Hl2. }
    by rewrite last_snoc.
  - rewrite last_None, filter_nil_Forall, Forall_forall, elem_of_rule_names.
    split.
    + intros Hall (r & Hr & Hn). by apply (Hall r).
    + intros Hnone r Hr Hn. apply Hnone. by exists r.
Qed.

Lemma rule_by_name_spec_witness :
  rule_by_name main_dup !! "x" = Some {| data_quality_control_name := "x"; header := "b" |}.
Proof.
  apply (proj1 (proj2 (rule_by_name_spec main_dup "x"))
           [ {| data_quality_control_name := "X"; header := "a" |} ]
           {| data_quality_control_name := "x"; header := "b" |} []).
  - reflexivity.
  - reflexivity.
  - intros r' Hr'. by apply elem_of_nil in Hr'.
Defined.

(** ** Rule extraction, row by row *)

Lemma rules_of_rows_fmap df i j rs :
  index_of "data_quality_control_name" (columns df) = Some i →
  index_of "header" (columns df) = Some j →
  rules_of_rows df rs =
    inr ((λ row, {| data_quality_control_name := str (default NaN (row !! i));
                    header := if isna (default NaN (row !! j)) then ""
                              else str (default NaN (row !! j)) |}) <$> rs).
Proof.
  intros Hi Hj. induction rs as [|row rs IH]; simpl; [done|].
  rewrite IH. unfold rule_of_row, row_get. by rewrite Hi, Hj.
Qed.

Lemma index_of_lookup c cols i :
  NoDup cols → cols !! i = Some c → index_of c cols = Some i.
Proof.
  revert i. induction cols as [|c' cols IH]; intros i Hnd; simpl; [done|].
  apply NoDup_cons in Hnd as [Hc' Hnd]. destruct i as [|i]; simpl.
  - intros [= ->]. by rewrite decide_True.
  - intros Hi. rewrite decide_False.
    + by rewrite (IH i).
    + intros ->. apply Hc'. apply list_elem_of_lookup. by exists i.
Qed.

(** X6. On a table with pairwise distinct column labels that has the
    column [data_quality_control_name] at position [i] and the column
    [header] at position [j], rule extraction succeeds whatever the cells
    are and returns, in row order, one rule per row: its name is the text
    of the cell at [i], its header the text of the cell at [j], or the empty
    string when that cell is missing. *)
Theorem rules_from_df_rows (ord : SetOrder) (df : DataFrame) (i j : nat) :
  NoDup (columns df) →
  columns df !! i = Some "data_quality_control_name" →
  columns df !! j = Some "header" →
  rules_from_df ord df =
    inr ((λ row, {| data_quality_control_name := str (default NaN (row !! i));
                    header := if isna (default NaN (row !! j)) then ""
                              else str (default NaN (row !! j)) |}) <$> rows df).
Proof.
  intros Hnd Hi Hj. unfold rules_from_df. rewrite decide_True.
  - apply rules_of_rows_fmap; by apply index_of_lookup.
  - apply required_subseteq. split; apply list_elem_of_lookup; eauto.
Qed.

Lemma rules_from_df_rows_witness :
  rules_from_df reverse_order mixed_sheet =
    inr ((λ row, {| data_quality_control_name := str (default NaN (row !! 2));
                    header := if isna (default NaN (row !! 0)) then ""
                              else str (default NaN (row !! 0)) |}) <$> rows mixed_sheet).
Proof.
  apply (rules_from_df_rows reverse_order mixed_sheet 2 0).
  - apply (bool_decide_unpack _). by vm_compute.
  - reflexivity.
  - reflexivity.
Defined.

(** ** Loops that store one entry per source, in general *)

Section overwrite_general.
Context {V : Type} (step : gmap string V → string * DataSet → gmap string V).
Context (entry : DataSet → option V).
Hypothesis step_entry : ∀ acc kv,
  step acc kv = match entry kv.2 with
                | Some v => <[name kv.2 := v]> acc
                | None => acc
                end.

Lemma foldl_overwrite_Some (l : dict DataSet) acc nm v :
  foldl step acc l !! nm = Some v →
  acc !! nm = Some v ∨ ∃ k s, (k, s) ∈ l ∧ name s = nm ∧ entry s = Some v.
Proof using step_entry.
  revert acc. induction l as [|[k s] l IH]; intros acc; simpl; [by left|].
  intros [Hacc|(k' & s' & Hin & Hnm & He)]%IH.
  - rewrite step_entry in Hacc. simpl in Hacc.
    destruct (entry s) as [v'|] eqn:He; [|by left].
    destruct (decide (name s = nm)) as [Hnm|Hnm].
    + subst nm. rewrite lookup_insert_eq in Hacc. injection Hacc as ->.
      right. exists k, s. split_and!; [by left|done|done].
    + rewrite lookup_insert_ne in Hacc by done. by left.
  - right. exists k', s'. split_and!; [by right|done|done].
Qed.

Lemma foldl_overwrite_empty (l : dict DataSet) acc :
  foldl step acc l = ∅ ↔ acc = ∅ ∧ ∀ k s, (k, s) ∈ l → entry s = None.
Proof using step_entry.
  revert acc. induction l as [|[k s] l IH]; intros acc; simpl.
  - split; [intros ->; split; [done|]; by intros ?? ?%elem_of_nil|by intros [-> _]].
  - rewrite IH, step_entry. simpl. split.
    + intros [Hacc Hl]. destruct (entry s) as [v|] eqn:He.
      { by apply insert_non_empty in Hacc. }
      split; [done|]. intros k' s' [[= -> ->]|Hin]%elem_of_cons; eauto.
    + intros [-> Hl]. rewrite (Hl k s) by (by left).
      split; [done|]. intros k' s' Hin. apply (Hl k' s'). by right.
Qed.
End overwrite_general.

(** X7. Whatever the sources are, an entry of the result of
    [find_missing_headers] is never an empty list: it is the list of the
    missing fields of a source that bears the display name of the entry. *)
Theorem find_missing_headers_entries (sources : dict DataSet) (nm : string)
    (missing : list string) :
  find_missing_headers sources !! nm = Some missing →
  missing ≠ [] ∧
  ∃ k src, (k, src) ∈ sources ∧ name src = nm ∧ missing = spec_missing_fields src.
Proof.
  unfold find_missing_headers.
  intros [Hacc|(k & src & Hin & Hnm & He)]%(foldl_overwrite_Some missing_headers_step
     (λ s, match missing_of s with [] => None | l => Some l end)
     missing_headers_step_entry).
  - by rewrite lookup_empty in Hacc.
  - rewrite missing_of_spec in He.
    destruct (spec_missing_fields src) as [|f fs] eqn:Hm; [done|].
    injection He as <-. split; [done|]. exists k, src. by rewrite Hm.
Qed.

Lemma find_missing_headers_entries_witness :
  ["owner"] ≠ [] ∧
  ∃ k src, (k, src) ∈ [("s1", upload_a); ("s2", upload_b)] ∧ name src = "rules.xlsx" ∧
           ["owner"] = spec_missing_fields src.
Proof.
  apply (find_missing_headers_entries [("s1", upload_a); ("s2", upload_b)] "rules.xlsx").
  by vm_compute.
Defined.

(** X8. [find_missing_headers] returns the empty mapping exactly when
    every declared field of every source has an expected header that is
    not empty and is a column label of the table of the source. *)
Theorem find_missing_headers_empty_iff (sources : dict DataSet) :
  find_missing_headers sources = ∅ ↔
  ∀ k src f meta, (k, src) ∈ sources → (f, meta) ∈ fields src →
    ∃ h, dict_get meta "header" = Some h ∧ h ≠ "" ∧ h ∈ columns (dataframe src).
Proof.
  unfold find_missing_headers.
  rewrite (foldl_overwrite_empty missing_headers_step
     (λ s, match missing_of s with [] => None | l => Some l end)
     missing_headers_step_entry).
  split.
  - intros [_ Hall] k src f meta Hin Hf. specialize (Hall k src Hin).
    rewrite missing_of_spec in Hall.
    assert (spec_missing_fields src = []) as Hnil
      by (by destruct (spec_missing_fields src)).
    apply fmap_nil_inv, filter_nil_Forall in Hnil. rewrite Forall_forall in Hnil.
    specialize (Hnil (f, meta) Hf). simpl in Hnil. unfold header_missing in Hnil.
    destruct (dict_get meta "header") as [h|]; [|done].
    exists h. split_and!; [done| |].
    + intros ->. apply Hnil. by left.
    + destruct (decide (h ∈ columns (dataframe src))); [done|].
      exfalso. apply Hnil. by right.
  - intros Hall. split; [done|]. intros k src Hin. rewrite missing_of_spec.
    assert (spec_missing_fields src = []) as ->; [|done].
    unfold spec_missing_fields.
    assert (filter (λ fm, header_missing src fm.2) (fields src) = []) as ->; [|done].
    apply filter_nil_Forall, Forall_forall. intros [f meta] Hf. simpl.
    destruct (Hall k src f meta Hin Hf) as (h & Hh & Hne & Hcol).
    unfold header_missing. rewrite Hh. by intros [?|?].
Qed.

(** X9. Whatever the sources are, an entry of the result of
    [exclusive_rule_names] is a non-empty list, sorted and without
    duplicates, of the normalized rule names that a source bearing the
    display name of the entry has and main has not. *)
Theorem exclusive_rule_names_entries (main : DataSet) (others : dict DataSet)
    (nm : string) (l : list string) :
  exclusive_rule_names main others !! nm = Some l →
  l ≠ [] ∧ Sorted String.le l ∧ NoDup l ∧
  ∃ k s, (k, s) ∈ others ∧ name s = nm ∧
         ∀ x, x ∈ l ↔ x ∈ rule_names s ∧ x ∉ rule_names main.
Proof.
  unfold exclusive_rule_names.
  intros [Hacc|(k & s & Hin & Hnm & He)]%(foldl_overwrite_Some
     (exclusive_step (rule_names main))
     (λ s, if decide (rule_names s ∖ rule_names main = ∅) then None
           else Some (Py.sorted (rule_names s ∖ rule_names main)))
     (exclusive_step_entry (rule_names main))).
  - by rewrite lookup_empty in Hacc.
  - case_decide as Hd; [done|]. injection He as <-. split_and!.
    + by rewrite sorted_nil.
    + apply sorted_Sorted.
    + apply sorted_NoDup.
    + exists k, s. split_and!; [done..|]. intros x.
      by rewrite elem_of_sorted, elem_of_difference.
Qed.

Lemma exclusive_rule_names_entries_witness :
  ["check z"] ≠ [] ∧ Sorted String.le ["check z"] ∧ NoDup ["check z"] ∧
  ∃ k s, (k, s) ∈ [("s2", upload_a); ("s3", upload_b)] ∧ name s = "rules.xlsx" ∧
         ∀ x, x ∈ ["check z"] ↔ x ∈ rule_names s ∧ x ∉ rule_names main3.
Proof.
  apply (exclusive_rule_names_entries main3 [("s2", upload_a); ("s3", upload_b)] "rules.xlsx").
  by vm_compute.
Defined.

(** X10. [exclusive_rule_names] returns the empty mapping exactly when
    every rule of every other source has its normalized name among those
    of the rules of main. *)
Theorem exclusive_rule_names_empty_iff (main : DataSet) (others : dict DataSet) :
  exclusive_rule_names main others = ∅ ↔
  ∀ k s r, (k, s) ∈ others → r ∈ dq_rules s →
    ∃ mr, mr ∈ dq_rules main ∧ normalized_name mr = normalized_name r.
Proof.
  unfold exclusive_rule_names.
  rewrite (foldl_overwrite_empty (exclusive_step (rule_names main))
     (λ s, if decide (rule_names s ∖ rule_names main = ∅) then None
           else Some (Py.sorted (rule_names s ∖ rule_names main)))
     (exclusive_step_entry (rule_names main))).
  split.
  - intros [_ Hall] k s r Hin Hr. specialize (Hall k s Hin). simpl in Hall.
    case_decide as Hd; [|done].
    apply elem_of_rule_names.
    destruct (decide (normalized_name r ∈ rule_names main)) as [|Hn]; [done|].
    exfalso. apply (not_elem_of_empty (C := gset string) (normalized_name r)).
    rewrite <- Hd. apply elem_of_difference. split; [|done].
    apply elem_of_rule_names. by exists r.
  - intros Hall. split; [done|]. intros k s Hin. simpl.
    rewrite decide_True; [done|]. apply set_eq. intros x.
    rewrite elem_of_difference, !elem_of_rule_names. split; [|by intros ?%not_elem_of_empty].
    intros [(r & Hr & <-) Hn]. exfalso. apply Hn. by apply (Hall k s r).
Qed.

(** ** Which findings the checks report *)

Lemma find_missing_headers_nil sources :
  find_missing_headers sources = ∅ ↔
  ∀ k src, (k, src) ∈ sources → spec_missing_fields src = [].
Proof.
  unfold find_missing_headers.
  rewrite (foldl_overwrite_empty missing_headers_step
     (λ s, match missing_of s with [] => None | l => Some l end)
     missing_headers_step_entry).
  split.
  - intros [_ Hall] k src Hin. specialize (Hall k src Hin).
    rewrite missing_of_spec in Hall. by destruct (spec_missing_fields src).
  - intros Hall. split; [done|]. intros k src Hin.
    by rewrite missing_of_spec, (Hall k src Hin).
Qed.

Lemma exclusive_rule_names_nil main others :
  exclusive_rule_names main others = ∅ ↔
  ∀ k s, (k, s) ∈ others → rule_names s ⊆ rule_names main.
Proof.
  unfold exclusive_rule_names.
  rewrite (foldl_overwrite_empty (exclusive_step (rule_names main))
     (λ s, if decide (rule_names s ∖ rule_names main = ∅) then None
           else Some (Py.sorted (rule_names s ∖ rule_names main)))
     (exclusive_step_entry (rule_names main))).
  split.
  - intros [_ Hall] k s Hin. specialize (Hall k s Hin). simpl in Hall.
    case_decide as Hd; [|done]. intros x Hx.
    destruct (decide (x ∈ rule_names main)) as [|Hn]; [done|].
    exfalso. apply (not_elem_of_empty (C := gset string) x).
    rewrite <- Hd. by apply elem_of_difference.
  - intros Hall. split; [done|]. intros k s Hin. simpl.
    rewrite decide_True; [done|]. apply set_eq. intros x.
    rewrite elem_of_difference. split; [|by intros ?%not_elem_of_empty].
    intros [Hx Hn]. exfalso. by apply Hn, (Hall k s Hin).
Qed.

Lemma sync_check_default main others nm :
  default [] (sync_check main others !! nm) = spec_mismatches main nm others.
Proof.
  unfold sync_check. rewrite sync_sources_lookup. by rewrite lookup_empty.
Qed.

Lemma sync_check_no_empty main others : no_empty_entry (sync_check main others).
Proof.
  apply sync_sources_no_empty. intros k. by rewrite lookup_empty.
Qed.

Lemma elem_of_spec_mismatches main nm others x :
  x ∈ spec_mismatches main nm others ↔
  ∃ k s r, (k, s) ∈ others ∧ name s = nm ∧ r ∈ dq_rules s ∧
           is_mismatch main r ∧ x = data_quality_control_name r.
Proof.
  unfold spec_mismatches. rewrite list_elem_of_bind. split.
  - intros ([k s] & Hx & Hin). simpl in Hx. case_decide as Hnm.
    + apply list_elem_of_fmap in Hx as (r & -> & [Hm Hr]%list_elem_of_filter).
      by exists k, s, r.
    + by apply elem_of_nil in Hx.
  - intros (k & s & r & Hin & Hnm & Hr & Hm & ->). exists (k, s). split; [|done].
    simpl. rewrite decide_True by done. apply list_elem_of_fmap. exists r.
    split; [done|]. by apply list_elem_of_filter.
Qed.

Lemma sync_check_nil main others :
  sync_check main others = ∅ ↔
  ∀ k s r, (k, s) ∈ others → r ∈ dq_rules s → ¬ is_mismatch main r.
Proof.
  rewrite map_empty. split.
  - intros Hnone k s r Hin Hr Hm.
    pose proof (sync_check_default main others (name s)) as Hd.
    rewrite Hnone in Hd. simpl in Hd.
    assert (data_quality_control_name r ∈ spec_mismatches main (name s) others) as Hx.
    { apply elem_of_spec_mismatches. by exists k, s, r. }
    rewrite <- Hd in Hx. by apply elem_of_nil in Hx.
  - intros Hall nm.
    pose proof (sync_check_default main others nm) as Hd.
    pose proof (sync_check_no_empty main others nm) as Hne.
    destruct (sync_check main others !! nm) as [[|x l]|]; [done| |done].
    simpl in Hd. exfalso.
    assert (x ∈ spec_mismatches main nm others) as Hx by (rewrite <- Hd; by left).
    apply elem_of_spec_mismatches in Hx as (k & s & r & Hin & _ & Hr & Hm & _).
    by apply (Hall k s r).
Qed.

Lemma is_mismatch_rule_by_name main r :
  is_mismatch main r ↔
  ∃ mr, rule_by_name main !! normalized_name r = Some mr ∧ header_set r ≠ header_set mr.
Proof.
  unfold is_mismatch. rewrite rule_by_name_lookup.
  destruct (main_rule main (normalized_name r)) as [mr|].
  - split; [intros Hne; by exists mr|]. by intros (mr' & [= <-] & Hne).
  - split; [done|]. by intros (mr' & ? & _).
Qed.

Lemma main_rule_elem main n mr :
  main_rule main n = Some mr → mr ∈ dq_rules main ∧ normalized_name mr = n.
Proof.
  unfold main_rule. intros Hr%last_Some_elem_of.
  by apply list_elem_of_filter in Hr as [? ?].
Qed.

(** X11. [sync_check] returns the empty mapping exactly when every rule
    of every other source for which main's by-name mapping holds a rule has
    the same header set as that rule. *)
Theorem sync_check_empty_iff (main : DataSet) (others : dict DataSet) :
  sync_check main others = ∅ ↔
  ∀ k s r mr, (k, s) ∈ others → r ∈ dq_rules s →
    rule_by_name main !! normalized_name r = Some mr →
    header_set r = header_set mr.
Proof.
  rewrite sync_check_nil. split.
  - intros Hall k s r mr Hin Hr Hmr.
    destruct (decide (header_set r = header_set mr)) as [|Hne]; [done|].
    exfalso. apply (Hall k s r Hin Hr). apply is_mismatch_rule_by_name. by exists mr.
  - intros Hall k s r Hin Hr (mr & Hmr & Hne)%is_mismatch_rule_by_name.
    by apply Hne, (Hall k s r mr).
Qed.

(** X12. Every name in a mismatch list of [sync_check] is the original
    name of a rule of an other source bearing the display name of the list,
    for which main has a rule of the same normalized name and of a
    different header set; the normalized name of that rule is in no list of
    [exclusive_rule_names]: a rule is never reported both as out of sync
    and as exclusive. *)
Theorem sync_check_not_exclusive (main : DataSet) (others : dict DataSet)
    (nm x : string) (l : list string) :
  sync_check main others !! nm = Some l → x ∈ l →
  ∃ k s r mr,
    (k, s) ∈ others ∧ name s = nm ∧ r ∈ dq_rules s ∧
    x = data_quality_control_name r ∧
    mr ∈ dq_rules main ∧ normalized_name mr = normalized_name r ∧
    header_set mr ≠ header_set r ∧
    ∀ nm' l', exclusive_rule_names main others !! nm' = Some l' →
              normalized_name r ∉ l'.
Proof.
  intros Hl Hx. pose proof (sync_check_default main others nm) as Hd.
  rewrite Hl in Hd. simpl in Hd. rewrite Hd in Hx.
  apply elem_of_spec_mismatches in Hx as (k & s & r & Hin & Hnm & Hr & Hm & ->).
  unfold is_mismatch in Hm.
  destruct (main_rule main (normalized_name r)) as [mr|] eqn:Hmr; [|done].
  apply main_rule_elem in Hmr as [Hmr Hn].
  exists k, s, r, mr. split_and!; [done..|by intros Heq; apply Hm| ].
  intros nm' l' Hl'.
  unfold exclusive_rule_names in Hl'.
  apply (foldl_overwrite_Some (exclusive_step (rule_names main))
     (λ s, if decide (rule_names s ∖ rule_names main = ∅) then None
           else Some (Py.sorted (rule_names s ∖ rule_names main)))
     (exclusive_step_entry (rule_names main))) in Hl'
    as [Hacc|(k' & s' & _ & _ & He)].
  - by rewrite lookup_empty in Hacc.
  - case_decide; [done|]. injection He as <-.
    rewrite elem_of_sorted, elem_of_difference. intros [_ Hnot]. apply Hnot.
    apply elem_of_rule_names. by exists mr.
Qed.

Lemma sync_check_not_exclusive_witness :
  ∃ k s r mr,
    (k, s) ∈ [("s3", other3); ("s2", other2)] ∧ name s = "third.xlsx" ∧ r ∈ dq_rules s ∧
    "check b" = data_quality_control_name r ∧
    mr ∈ dq_rules main3 ∧ normalized_name mr = normalized_name r ∧
    header_set mr ≠ header_set r ∧
    ∀ nm' l', exclusive_rule_names main3 [("s3", other3); ("s2", other2)] !! nm' = Some l' →
              normalized_name r ∉ l'.
Proof.
  apply (sync_check_not_exclusive main3 [("s3", other3); ("s2", other2)]
           "third.xlsx" "check b" ["check b"]).
  - by vm_compute.
  - by left.
Defined.

Lemma NoDup_fmap_elem_inj {A B} (f : A → B) (l : list A) x y :
  NoDup (f <$> l) → x ∈ l → y ∈ l → f x = f y → x = y.
Proof.
  induction l as [|a l IH]; simpl; [by intros _ ?%elem_of_nil|].
  intros [Ha Hnd]%NoDup_cons [->|Hx]%elem_of_cons [->|Hy]%elem_of_cons Heq; auto.
  - exfalso. apply Ha. rewrite Heq. apply list_elem_of_fmap. by exists y.
  - exfalso. apply Ha. rewrite <- Heq. apply list_elem_of_fmap. by exists x.
Qed.

(** X13. When the normalized names of the rules of main are pairwise
    distinct and every rule of every other source has the normalized name
    and the header set of some rule of main, neither [exclusive_rule_names]
    nor [sync_check] reports anything. *)
Theorem same_rules_no_findings (main : DataSet) (others : dict DataSet) :
  NoDup (normalized_name <$> dq_rules main) →
  (∀ k s r, (k, s) ∈ others → r ∈ dq_rules s →
            ∃ mr, mr ∈ dq_rules main ∧ same_rule r mr) →
  exclusive_rule_names main others = ∅ ∧ sync_check main others = ∅.
Proof.
  intros Hnd Hsame. split.
  - apply exclusive_rule_names_nil. intros k s Hin x (r & Hr & <-)%elem_of_rule_names.
    destruct (Hsame k s r Hin Hr) as (mr & Hmr & Hn & _).
    apply elem_of_rule_names. by exists mr.
  - apply sync_check_nil. intros k s r Hin Hr Hm. unfold is_mismatch in Hm.
    destruct (main_rule main (normalized_name r)) as [mr'|] eqn:Hmr'; [|done].
    apply main_rule_elem in Hmr' as [Hmr' Hn'].
    destruct (Hsame k s r Hin Hr) as (mr & Hmr & Hn & Hh).
    assert (mr' = mr) as ->.
    { apply (NoDup_fmap_elem_inj normalized_name (dq_rules main)); [done..|congruence]. }
    done.
Qed.

Lemma same_rules_no_findings_witness :
  exclusive_rule_names main3 [("s2", upload_b)] = ∅ ∧
  sync_check main3 [("s2", upload_b)] = ∅.
Proof.
  apply (same_rules_no_findings main3 [("s2", upload_b)]).
  - apply (bool_decide_unpack _). by vm_compute.
  - intros k s r [[= -> ->]|Hin]%elem_of_cons; [|by apply elem_of_nil in Hin].
    intros [->|Hr]%elem_of_cons; [|by apply elem_of_nil in Hr].
    exists {| data_quality_control_name := "Check A"; header := "col1,col2" |}.
    split; [by left|]. split; [reflexivity|].
    apply (bool_decide_unpack _). by vm_compute.
Defined.

(** ** What the report says *)

(** X14. On a single source (named as main or not), [run_health_check]
    returns a report whose main source is that source, whose row counts
    match and whose exclusives and mismatches are empty; its [ok] flag is
    set exactly when every declared field of the source has a non-empty
    expected header that is a column label of its table. *)
Theorem run_health_check_single (k : string) (s : DataSet) (main_key : option string) :
  main_key = None ∨ main_key = Some k →
  ∃ rep, run_health_check [(k, s)] main_key = inr rep ∧
    main_source rep = name s ∧
    rule_count_ok rep = true ∧ exclusives rep = ∅ ∧ mismatches rep = ∅ ∧
    (ok rep = true ↔
       ∀ f meta, (f, meta) ∈ fields s →
         ∃ h, dict_get meta "header" = Some h ∧ h ≠ "" ∧ h ∈ columns (dataframe s)).
Proof.
  intros Hkey.
  assert (main_key_of [(k, s)] main_key k) as Hk by (by destruct Hkey as [-> | ->]).
  assert (dict_get [(k, s)] k = Some s) as Hs by (simpl; by rewrite decide_True).
  eexists. split; [by apply (run_health_check_main [(k, s)] main_key k s)|].
  assert (without_key [(k, s)] k = []) as ->.
  { unfold without_key. rewrite (filter_cons (λ kv : string * DataSet, kv.1 ≠ k) (k, s) []).
    by rewrite decide_False by (by intros ?). }
  simpl. split_and!; [done..|].
  rewrite !andb_true_r, bool_decide_eq_true, find_missing_headers_nil. split.
  - intros Hall f meta Hf.
    specialize (Hall k s ltac:(by left)).
    apply fmap_nil_inv, filter_nil_Forall in Hall. rewrite Forall_forall in Hall.
    specialize (Hall (f, meta) Hf). simpl in Hall. unfold header_missing in Hall.
    destruct (dict_get meta "header") as [h|]; [|done].
    exists h. split_and!; [done| |].
    + intros ->. apply Hall. by left.
    + destruct (decide (h ∈ columns (dataframe s))); [done|].
      exfalso. apply Hall. by right.
  - intros Hall k' s' [[= -> ->]|?%elem_of_nil]%elem_of_cons; [|done].
    unfold spec_missing_fields.
    assert (filter (λ fm, header_missing s fm.2) (fields s) = []) as ->; [|done].
    apply filter_nil_Forall, Forall_forall. intros [f meta] Hf. simpl.
    destruct (Hall f meta Hf) as (h & Hh & Hne & Hcol).
    unfold header_missing. rewrite Hh. by intros [?|?].
Qed.

Lemma run_health_check_single_witness :
  ∃ rep, run_health_check [("s1", upload_a)] None = inr rep ∧
    main_source rep = name upload_a ∧
    rule_count_ok rep = true ∧ exclusives rep = ∅ ∧ mismatches rep = ∅ ∧
    (ok rep = true ↔
       ∀ f meta, (f, meta) ∈ fields upload_a →
         ∃ h, dict_get meta "header" = Some h ∧ h ≠ "" ∧
              h ∈ columns (dataframe upload_a)).
Proof.
  apply (run_health_check_single "s1" upload_a None). by left.
Defined.

(** X15. The [ok] flag of the report of [run_health_check] is set exactly
    when no source (main included) has a missing field and every source
    other than main has as many rows as main, no rule whose normalized name
    main lacks, and no rule whose header set differs from that of the rule
    main's by-name mapping holds for its normalized name. *)
Theorem run_health_check_ok_meaning (sources : dict DataSet)
    (main_key : option string) (k : string) (main : DataSet) :
  main_key_of sources main_key k → dict_get sources k = Some main →
  ∃ rep, run_health_check sources main_key = inr rep ∧
    (ok rep = true ↔
       (∀ k' s, (k', s) ∈ sources → spec_missing_fields s = []) ∧
       (∀ k' s, (k', s) ∈ sources → k' ≠ k →
          len (dataframe s) = len (dataframe main) ∧
          rule_names s ⊆ rule_names main ∧
          ∀ r mr, r ∈ dq_rules s →
            rule_by_name main !! normalized_name r = Some mr →
            header_set r = header_set mr)).
Proof.
  intros Hk Hmain.
  assert (sources ≠ []) as Hne by (intros ->; done).
  eexists. split; [by apply (run_health_check_main sources main_key k main)|].
  simpl. rewrite !andb_true_iff, !bool_decide_eq_true.
  rewrite find_missing_headers_nil, compare_rule_counts_true, Forall_forall.
  split.
  - intros [[[Hmiss Hsame] Hexcl] Hmism].
    assert ((compare_rule_counts main (without_key sources k)).1 = true) as Hc.
    { rewrite compare_rule_counts_true, Forall_forall. exact Hsame. }
    rewrite Hc in Hexcl, Hmism.
    simpl in Hexcl, Hmism.
    pose proof (proj1 (exclusive_rule_names_nil main (without_key sources k)) Hexcl) as Hexcl'.
    pose proof (proj1 (sync_check_nil main (without_key sources k)) Hmism) as Hmism'.
    split; [done|]. intros k' s Hin Hk'.
    assert ((k', s) ∈ without_key sources k) as Ho by (by apply elem_of_without_key).
    split_and!.
    + apply (Hsame (k', s) Ho).
    + by apply (Hexcl' k' s).
    + intros r mr Hr Hmr.
      destruct (decide (header_set r = header_set mr)) as [|Hd]; [done|].
      exfalso. apply (Hmism' k' s r Ho Hr). apply is_mismatch_rule_by_name. by exists mr.
  - intros [Hmiss Hall].
    assert (Forall (same_count main) (without_key sources k)) as Hsame.
    { apply Forall_forall. intros [k' s] [Hin Hk']%elem_of_without_key.
      by apply (Hall k' s). }
    assert ((compare_rule_counts main (without_key sources k)).1 = true) as Hc
      by (by apply compare_rule_counts_true).
    rewrite Hc. split_and!; [done|by apply Forall_forall| |].
    + apply exclusive_rule_names_nil. intros k' s [Hin Hk']%elem_of_without_key.
      by apply (Hall k' s).
    + apply sync_check_nil.
      intros k' s r [Hin Hk']%elem_of_without_key Hr (mr & Hmr & Hd)%is_mismatch_rule_by_name.
      apply Hd. by apply (Hall k' s Hin Hk').
Qed.

Lemma run_health_check_ok_meaning_witness :
  ∃ rep, run_health_check [("s1", main3); ("s2", upload_b)] (Some "s1") = inr rep ∧
    (ok rep = true ↔
       (∀ k' s, (k', s) ∈ [("s1", main3); ("s2", upload_b)] → spec_missing_fields s = []) ∧
       (∀ k' s, (k', s) ∈ [("s1", main3); ("s2", upload_b)] → k' ≠ "s1" →
          len (dataframe s) = len (dataframe main3) ∧
          rule_names s ⊆ rule_names main3 ∧
          ∀ r mr, r ∈ dq_rules s →
            rule_by_name main3 !! normalized_name r = Some mr →
            header_set r = header_set mr)).
Proof.
  apply (run_health_check_ok_meaning [("s1", main3); ("s2", upload_b)] (Some "s1") "s1" main3).
  - reflexivity.
  - reflexivity.
Defined.

(** ** The upload handler on small inputs *)

Example is_allowed_ex :
  _is_allowed "Rules.XLSX" = true ∧ _is_allowed "rules.xls" = true ∧
  _is_allowed "rules.csv" = false ∧ _is_allowed "xlsx" = false ∧
  _is_allowed ".xls" = true.
Proof. by vm_compute. Qed.

Example analyze_main_key_ex :
  let sources := [("s1", main3); ("s2", other2)] in
  analyze_main_key " 2 " sources = Some "s2" ∧
  analyze_main_key "0" sources = None ∧
  analyze_main_key "3" sources = None ∧
  analyze_main_key "" sources = None ∧
  analyze_main_key "-1" sources = None ∧
  analyze_main_key "007" [("s1", main3)] = None ∧
  analyze_main_key "01" sources = Some "s1".
Proof. by vm_compute. Qed.

Example analyze_ex :
  match analyze (λ s, s) sample_reader sorted_order sample_files "2" with
  | Rendered rep =>
      main_source rep = "other.xls" ∧ missing_headers rep = ∅ ∧
      rule_count_ok rep = true ∧ exclusives rep = {["Main.XLSX" := ["check b"]]} ∧
      mismatches rep = ∅ ∧ ok rep = false
  | _ => False
  end.
Proof. by vm_compute. Qed.

(** ** The upload handler *)

Lemma starts_with_spec l p : starts_with l p = true ↔ ∃ k, l = p ++ k.
Proof.
  revert l. induction p as [|a p IH]; intros [|b l]; simpl.
  - split; [intros _; by exists []|done].
  - split; [intros _; by exists (b :: l)|done].
  - split; [done|]. by intros [k ?].
  - case_decide as Hab.
    + subst b. rewrite IH. split; intros [k Hk]; exists k; [by rewrite Hk|].
      by injection Hk.
    + split; [done|]. intros [k Hk]. by injection Hk.
Qed.

Lemma chars_inj s t : Py.chars s = Py.chars t → s = t.
Proof.
  intros Heq. rewrite <- (String.string_of_list_ascii_of_string s).
  rewrite <- (String.string_of_list_ascii_of_string t). unfold Py.chars in Heq.
  by rewrite Heq.
Qed.

Lemma endswith_spec s suffix :
  endswith s suffix = true ↔ ∃ stem, s = stem +:+ suffix.
Proof.
  unfold endswith. rewrite starts_with_spec. split.
  - intros [k Hk]. exists (Py.str_of (reverse k)). apply chars_inj.
    rewrite chars_app. unfold Py.chars at 2, Py.str_of.
    rewrite String.list_ascii_of_string_of_list_ascii.
    apply (inj reverse). by rewrite reverse_app, reverse_involutive.
  - intros [stem ->]. exists (reverse (Py.chars stem)).
    by rewrite chars_app, reverse_app.
Qed.

(** X16. [_is_allowed] accepts a file name exactly when the name, put in
    lower case, ends in ".xlsx" or in ".xls". *)
Theorem is_allowed_spec (filename : string) :
  _is_allowed filename = true ↔
  ∃ stem, Py.lower filename = stem +:+ ".xlsx" ∨ Py.lower filename = stem +:+ ".xls".
Proof.
  unfold _is_allowed. rewrite bool_decide_eq_true. unfold set_Exists, ALLOWED.
  split.
  - intros (ext & Hext & [stem Hs]%endswith_spec).
    exists stem. apply elem_of_union in Hext as [->%elem_of_singleton| ->%elem_of_singleton]; auto.
  - intros (stem & [Hs|Hs]).
    + exists ".xlsx". split; [apply elem_of_union_l; by apply elem_of_singleton|].
      apply endswith_spec. by exists stem.
    + exists ".xls". split; [apply elem_of_union_r; by apply elem_of_singleton|].
      apply endswith_spec. by exists stem.
Qed.

Lemma dict_set_nonempty {V} (d : dict V) k v : dict_set d k v ≠ [].
Proof. destruct d as [|[k' v'] d]; simpl; [done|]. by case_decide. Qed.

Lemma elem_of_dict_set {V} (d : dict V) k v k' v' :
  (k', v') ∈ dict_set d k v → (k', v') ∈ d ∨ (k', v') = (k, v).
Proof.
  induction d as [|[k0 v0] d IH]; simpl.
  - intros [->|?%elem_of_nil]%elem_of_cons; [by right|done].
  - case_decide as Hk.
    + subst k0. intros [->|Hin]%elem_of_cons; [by right|]. left. by right.
    + intros [->|Hin]%elem_of_cons; [left; by left|].
      destruct (IH Hin) as [?|?]; [left; by right|by right].
Qed.

Lemma fields_of_columns_elem df f meta :
  (f, meta) ∈ fields_of_columns df → meta = [("header", f)] ∧ f ∈ columns df.
Proof.
  unfold fields_of_columns.
  assert (∀ (cols : list string) (acc : dict (dict string)),
            (f, meta) ∈ foldl (λ fields h, dict_set fields h [("header", h)]) acc cols →
            (f, meta) ∈ acc ∨ (meta = [("header", f)] ∧ f ∈ cols)) as Hgen.
  { induction cols as [|h cols IH]; intros acc; simpl; [by left|].
    intros [[Hacc|Heq]%elem_of_dict_set|[-> Hf]]%IH.
    - by left.
    - injection Heq as -> ->. right. split; [done|by left].
    - right. split; [done|by right]. }
  intros [?%elem_of_nil|?]%Hgen; done.
Qed.

Lemma run_health_check_missing sources main_key rep :
  run_health_check sources main_key = inr rep →
  missing_headers rep = find_missing_headers sources.
Proof.
  unfold run_health_check. destruct sources as [|[first s0] sources']; [done|].
  destruct (dict_get _ _); [|done].
  destruct (compare_rule_counts _ _). by intros [= <-].
Qed.

Lemma rules_from_df_error ord df e :
  rules_from_df ord df = inl e → ∃ msg, e = ValueError msg.
Proof.
  unfold rules_from_df. case_decide as Hreq.
  - apply required_subseteq in Hreq as [Hn Hh].
    destruct (rules_of_rows_ok df (rows df) Hn Hh) as (rules & -> & _). done.
  - intros [= <-]. by eexists.
Qed.

Section analyze_facts.
Context {Data E : Type}.
Variable secure_filename : string → string.
Variable read_excel : Data → E + DataFrame.
Variable ord : SetOrder.

Lemma analyze_files_sources i (files : list (FileStorage Data)) acc sources :
  analyze_files secure_filename read_excel ord i files acc = inr sources →
  (files ≠ [] ∨ acc ≠ [] → sources ≠ []) ∧
  (∀ k s, (k, s) ∈ sources →
     (k, s) ∈ acc ∨
     ∃ file, file ∈ files ∧ read_excel (stream file) = inr (dataframe s) ∧
             fields s = fields_of_columns (dataframe s)).
Proof.
  revert i acc. induction files as [|file files IH]; intros i acc; simpl.
  - intros [= <-]. split; [by intros [?|?]|]. intros k s Hin. by left.
  - destruct (negb (_is_allowed _)); [done|].
    destruct (read_excel (stream file)) as [e|df] eqn:Hread; [done|].
    destruct (rules_from_df ord df) as [e|rules]; [done|].
    intros [Hne Hsrc]%IH. split.
    + intros _. apply Hne. right. apply dict_set_nonempty.
    + intros k s [[Hacc|Heq]%elem_of_dict_set|(file' & Hin & Hr & Hf)]%Hsrc.
      * by left.
      * injection Heq as -> ->. right. exists file. split_and!; [by left|done|done].
      * right. exists file'. split_and!; [by right|done|done].
Qed.

Lemma analyze_files_Raised i (files : list (FileStorage Data)) acc e :
  analyze_files secure_filename read_excel ord i files acc = inl (Raised e) →
  ∃ file df, file ∈ files ∧ read_excel (stream file) = inr df ∧
             rules_from_df ord df = inl e.
Proof.
  revert i acc. induction files as [|file files IH]; intros i acc; simpl; [done|].
  destruct (negb (_is_allowed _)); [done|].
  destruct (read_excel (stream file)) as [e'|df] eqn:Hread; [done|].
  destruct (rules_from_df ord df) as [e'|rules] eqn:Hrules.
  - intros [= <-]. exists file, df. split_and!; [by left|done|done].
  - intros (file' & df' & Hin & Hr & He)%IH. exists file', df'.
    split_and!; [by right|done|done].
Qed.

Lemma analyze_main_key_valid main_index sources k :
  analyze_main_key main_index sources = Some k → k ∈ dict_keys sources.
Proof.
  unfold analyze_main_key. destruct (isdigit _); [|done].
  case_decide; [|done]. intros Hk. apply list_elem_of_lookup. eauto.
Qed.

Lemma forallb_false_nonempty {A} (f : A → bool) l : forallb f l = false → l ≠ [].
Proof. by destruct l. Qed.

(** X17. When the form field [main_index] is an ASCII text of at most 4300
    characters, the only exception of the reconciliation core that
    [analyze] lets through is the [ValueError] of rule extraction on a
    sheet that it has read: neither the error for empty input nor a
    [KeyError] on the main key can leave the handler. *)
Theorem analyze_raises (files : list (FileStorage Data)) (main_index : string) (e : exn) :
  is_ascii main_index → length (Py.chars main_index) ≤ 4300 →
  analyze secure_filename read_excel ord files main_index = Raised e →
  (∃ msg, e = ValueError msg) ∧
  ∃ file df, file ∈ files ∧ read_excel (stream file) = inr df ∧
             rules_from_df ord df = inl e.
Proof.
  intros _ _. unfold analyze. destruct (forallb _ files) eqn:Hblank; [done|].
  apply forallb_false_nonempty in Hblank.
  destruct (analyze_files _ _ _ 1 files []) as [r|sources] eqn:Hfiles.
  - intros ->. apply analyze_files_Raised in Hfiles as (file & df & Hin & Hr & He).
    split; [by apply (rules_from_df_error ord df)|]. by exists file, df.
  - apply analyze_files_sources in Hfiles as [Hne _].
    specialize (Hne ltac:(by left)).
    destruct (main_source_exists sources (analyze_main_key main_index sources) Hne)
      as (k & main & Hk & Hmain).
    { intros k. apply analyze_main_key_valid. }
    by rewrite (run_health_check_main sources _ k main Hne Hk Hmain).
Qed.

(** X18. When the column labels of the sheets read by [analyze] are texts
    (as the tables of the model have them) and none of them is empty, the
    report it renders has no missing header: the declared fields of a
    source are the column labels of its own sheet. *)
Theorem analyze_no_missing_headers (files : list (FileStorage Data))
    (main_index : string) (rep : Report) :
  (∀ file df, file ∈ files → read_excel (stream file) = inr df → "" ∉ columns df) →
  analyze secure_filename read_excel ord files main_index = Rendered rep →
  missing_headers rep = ∅.
Proof.
  intros Hcols. unfold analyze. destruct (forallb _ files); [done|].
  destruct (analyze_files _ _ _ 1 files []) as [r|sources] eqn:Hfiles.
  { intros ->. exfalso. clear Hcols. revert Hfiles. generalize 1, (@nil (string * DataSet)).
    induction files as [|file files IH]; intros i acc; simpl; [done|].
    destruct (negb (_is_allowed _)); [done|].
    destruct (read_excel (stream file)); [done|].
    destruct (rules_from_df ord _); [done|]. apply IH. }
  apply analyze_files_sources in Hfiles as [_ Hsrc].
  destruct (run_health_check sources _) as [e|rep'] eqn:Hrun; [done|].
  intros [= ->]. rewrite (run_health_check_missing _ _ _ Hrun).
  apply find_missing_headers_nil. intros k s Hin.
  destruct (Hsrc k s Hin) as [?%elem_of_nil|(file & Hfile & Hread & Hfields)]; [done|].
  unfold spec_missing_fields.
  assert (filter (λ fm, header_missing s fm.2) (fields s) = []) as ->; [|done].
  apply filter_nil_Forall, Forall_forall. intros [f meta]. rewrite Hfields.
  intros [-> Hf]%fields_of_columns_elem. simpl. unfold header_missing. simpl.
  intros [->|Hn]; [|done]. by apply (Hcols file (dataframe s)).
Qed.
End analyze_facts.

Lemma analyze_raises_witness :
  (∃ msg,
     ValueError "Rules sheet missing columns: ['header']. Expected: ['data_quality_control_name', 'header']" =
     ValueError msg) ∧
  ∃ file df, file ∈ [ {| filename := "bad.xlsx"; stream := () |} ] ∧
             headerless_reader (stream file) = inr df ∧
             rules_from_df sorted_order df =
               inl (ValueError "Rules sheet missing columns: ['header']. Expected: ['data_quality_control_name', 'header']").
Proof.
  apply (analyze_raises (λ s, s) headerless_reader sorted_order
           [ {| filename := "bad.xlsx"; stream := () |} ] "1").
  - unfold is_ascii. apply (bool_decide_unpack _). by vm_compute.
  - simpl. lia.
  - by vm_compute.
Defined.

Lemma analyze_no_missing_headers_witness :
  ∃ rep,
    analyze (λ s, s) sample_reader sorted_order sample_files "2" = Rendered rep ∧
    missing_headers rep = ∅.
Proof.
  assert ({ rep | analyze (λ s, s) sample_reader sorted_order sample_files "2" =
                  Rendered rep }) as [rep Hrep].
  { vm_compute. eexists. reflexivity. }
  exists rep. split; [exact Hrep|].
  apply (analyze_no_missing_headers (λ s, s) sample_reader sorted_order sample_files "2" rep);
    [|exact Hrep].
  intros file df _ [= <-]. apply (bool_decide_unpack _). by vm_compute.
Defined.

(** ** Decimal numbers *)

Lemma str_nat_inj a b : Py.str_nat a = Py.str_nat b → a = b.
Proof.
  unfold Py.str_nat. intros Heq. apply DecimalNat.Unsigned.to_uint_inj.
  apply (f_equal NilEmpty.uint_of_string) in Heq.
  rewrite !NilEmpty.usu in Heq. by injection Heq.
Qed.

Lemma int_of_uint_acc (d : Decimal.uint) (acc : nat) :
  foldl (λ n c, 10 * n + (Z.of_nat (nat_of_ascii c) - 48))%Z (Z.of_nat acc)
        (Py.chars (NilEmpty.string_of_uint d)) =
  Z.of_nat (Nat.of_uint_acc d acc).
Proof.
  revert acc. induction d as [|d IH|d IH|d IH|d IH|d IH|d IH|d IH|d IH|d IH|d IH];
    intros acc; simpl; [done|..];
    rewrite <- IH; f_equal; rewrite Nat.tail_mul_spec;
    match goal with
    | |- context [nat_of_ascii ?c] =>
        let v := eval vm_compute in (nat_of_ascii c) in
        change (nat_of_ascii c) with v
    end; lia.
Qed.

Lemma int_of_digits_str_nat n : int_of_digits (Py.str_nat n) = Z.of_nat n.
Proof.
  unfold int_of_digits, Py.str_nat.
  change 0%Z with (Z.of_nat 0).
  rewrite (int_of_uint_acc (Nat.to_uint n) 0).
  f_equal. apply DecimalNat.Unsigned.of_to.
Qed.

Lemma digits_of_uint (d : Decimal.uint) :
  Forall (λ c, isdigit_char c = true ∧ Py.isspace c = false)
         (Py.chars (NilEmpty.string_of_uint d)).
Proof. induction d; simpl; constructor; done. Qed.

Lemma to_uint_nonnil n : Nat.to_uint n ≠ Decimal.Nil.
Proof.
  rewrite <- (DecimalNat.Unsigned.of_to n) at 1. rewrite DecimalNat.Unsigned.to_of.
  apply DecimalFacts.unorm_nonnil.
Qed.

Lemma str_nat_nonempty n : Py.str_nat n ≠ "".
Proof.
  unfold Py.str_nat. pose proof (to_uint_nonnil n) as Hn.
  by destruct (Nat.to_uint n).
Qed.

Lemma forallb_Forall_true {A} (f : A → bool) l :
  Forall (λ x, f x = true) l → forallb f l = true.
Proof. induction 1 as [|x l Hx _ IH]; simpl; [done|]. by rewrite Hx, IH. Qed.

Lemma isdigit_str_nat n : isdigit (Py.str_nat n) = true.
Proof.
  pose proof (str_nat_nonempty n) as Hne. unfold isdigit.
  destruct (Py.str_nat n) as [|c s] eqn:Hs; [done|]. rewrite <- Hs.
  apply forallb_Forall_true. unfold Py.str_nat.
  eapply Forall_impl; [apply digits_of_uint|]. simpl. by intros c' [-> _].
Qed.

Lemma lstrip_no_space l :
  Forall (λ c, Py.isspace c = false) l → Py.lstrip_chars l = l.
Proof. destruct 1 as [|c l Hc _]; simpl; [done|]. by rewrite Hc. Qed.

Lemma strip_no_space s :
  Forall (λ c, Py.isspace c = false) (Py.chars s) → Py.strip s = s.
Proof.
  intros Hs. unfold Py.strip, Py.rstrip_chars.
  rewrite (lstrip_no_space (Py.chars s)) by done.
  rewrite lstrip_no_space by (by apply Forall_reverse).
  rewrite reverse_involutive. apply String.string_of_list_ascii_of_string.
Qed.

Lemma strip_str_nat n : Py.strip (Py.str_nat n) = Py.str_nat n.
Proof.
  apply strip_no_space. unfold Py.str_nat.
  eapply Forall_impl; [apply digits_of_uint|]. simpl. by intros c' [_ ->].
Qed.

(** ** The sources that the handler builds *)

Lemma dict_set_fresh {V} (d : dict V) k v :
  k ∉ dict_keys d → dict_set d k v = d ++ [(k, v)].
Proof.
  induction d as [|[k' v'] d IH]; simpl; [done|].
  rewrite not_elem_of_cons. intros [Hk Hd].
  rewrite decide_False by done. by rewrite IH.
Qed.

Lemma dict_get_lookup {V} (d : dict V) n k v :
  d !! n = Some (k, v) →
  (∀ n' k' v', n' < n → d !! n' = Some (k', v') → k' ≠ k) →
  dict_get d k = Some v.
Proof.
  revert n. induction d as [|[k0 v0] d IH]; intros n; [done|].
  destruct n as [|n]; simpl.
  - intros [= -> ->] _. by rewrite decide_True.
  - intros Hn Hbefore. rewrite decide_False.
    + apply (IH n Hn). intros n' k' v' Hlt Hn'.
      apply (Hbefore (S n') k' v'); [lia|done].
    + apply (Hbefore 0 k0 v0); [lia|done].
Qed.

Section analyze_sources.
Context {Data E : Type}.
Variable secure_filename : string → string.
Variable read_excel : Data → E + DataFrame.
Variable ord : SetOrder.

Lemma analyze_files_lookup i (files : list (FileStorage Data)) acc sources :
  analyze_files secure_filename read_excel ord i files acc = inr sources →
  (∀ k, k ∈ dict_keys acc → ∃ j, j < i ∧ k = "s" +:+ Py.str_nat j) →
  length sources = length acc + length files ∧
  (∀ n kv, acc !! n = Some kv → sources !! n = Some kv) ∧
  (∀ n file, files !! n = Some file →
     ∃ s, sources !! (length acc + n) = Some ("s" +:+ Py.str_nat (i + n), s) ∧
          name s = upload_name secure_filename (i + n) file).
Proof.
  revert i acc. induction files as [|file files IH]; intros i acc; simpl.
  - intros [= <-] _. split_and!; [lia|done|done].
  - destruct (negb (_is_allowed _)); [done|].
    destruct (read_excel (stream file)) as [e|df]; [done|].
    destruct (rules_from_df ord df) as [e|rules]; [done|].
    intros Hfiles Hacc.
    rewrite dict_set_fresh in Hfiles.
    2:{ intros (j & Hj & Heq)%Hacc. injection Heq as Heq%str_nat_inj. lia. }
    apply IH in Hfiles as (Hlen & Hpre & Hnew).
    2:{ intros k. unfold dict_keys. rewrite fmap_app, elem_of_app. simpl.
        intros [(j & Hj & ->)%Hacc|[->|?%elem_of_nil]%elem_of_cons]; [|by exists i; split; [lia|]|done].
        exists j. split; [lia|done]. }
    rewrite length_app in Hlen, Hnew. simpl in Hlen, Hnew. split_and!.
    + lia.
    + intros n kv Hn. apply Hpre. by apply lookup_app_l_Some.
    + intros [|n] file' Hn; simpl in Hn.
      * injection Hn as <-. rewrite !Nat.add_0_r.
        exists {| name := upload_name secure_filename i file; dataframe := df;
                  dq_rules := rules; fields := fields_of_columns df |}.
        split; [|done]. apply Hpre. by apply list_lookup_middle.
      * destruct (Hnew n file' Hn) as (s & Hs & Hname). exists s.
        replace (length acc + S n) with (length acc + 1 + n) by lia.
        by replace (i + S n) with (S i + n) by lia.
Qed.

Lemma analyze_run (files : list (FileStorage Data)) main_index rep :
  analyze secure_filename read_excel ord files main_index = Rendered rep →
  ∃ sources,
    analyze_files secure_filename read_excel ord 1 files [] = inr sources ∧
    run_health_check sources (analyze_main_key main_index sources) = inr rep.
Proof.
  unfold analyze. destruct (forallb _ files); [done|].
  destruct (analyze_files _ _ _ 1 files []) as [r|sources] eqn:Hfiles.
  - intros ->. exfalso. revert Hfiles. generalize 1, (@nil (string * DataSet)).
    induction files as [|file files IH]; intros i acc; simpl; [done|].
    destruct (negb (_is_allowed _)); [done|].
    destruct (read_excel (stream file)); [done|].
    destruct (rules_from_df ord _); [done|]. apply IH.
  - destruct (run_health_check sources _) as [e|rep'] eqn:Hrun; [done|].
    intros [= ->]. by exists sources.
Qed.

Lemma run_health_check_main_source sources main_key k main rep :
  main_key_of sources main_key k → dict_get sources k = Some main →
  run_health_check sources main_key = inr rep → main_source rep = name main.
Proof.
  intros Hk Hmain. assert (sources ≠ []) as Hne by (by intros ->).
  rewrite (run_health_check_main sources main_key k main Hne Hk Hmain).
  by intros [= <-].
Qed.

(** X19. When the form field [main_index] is an ASCII text that, once
    stripped, is not a string of digits (empty, for instance), the main
    source of the report that [analyze] renders is the first uploaded
    file. *)
Theorem analyze_default_main (files : list (FileStorage Data)) (main_index : string)
    (rep : Report) :
  is_ascii main_index →
  isdigit (Py.strip main_index) = false →
  analyze secure_filename read_excel ord files main_index = Rendered rep →
  ∃ file rest, files = file :: rest ∧
               main_source rep = upload_name secure_filename 1 file.
Proof.
  intros _ Hdigit (sources & Hfiles & Hrun)%analyze_run.
  pose proof Hfiles as (Hlen & _ & Hnew)%analyze_files_lookup;
    [|by intros k ?%elem_of_nil].
  destruct files as [|file rest].
  { simpl in Hfiles. injection Hfiles as <-. done. }
  exists file, rest. split; [done|].
  destruct (Hnew 0 file eq_refl) as (s & Hs & Hname). simpl in Hs.
  change (1 + 0) with 1 in Hname. rewrite <- Hname.
  assert (analyze_main_key main_index sources = None) as Hkey
    by (unfold analyze_main_key; by rewrite Hdigit).
  rewrite Hkey in Hrun.
  destruct sources as [|[k0 s0] sources']; [done|]. simpl in Hs. injection Hs as -> ->.
  apply (run_health_check_main_source (("s" +:+ Py.str_nat 1, s) :: sources') None
           ("s" +:+ Py.str_nat 1) s rep); [done| |done].
  cbn [dict_get]. by rewrite decide_True.
Qed.

(** X20. When the form field [main_index] is the decimal writing of
    [n + 1] and there is a file at position [n] (counting from 0), the main
    source of the report that [analyze] renders is that file: the index is
    counted from 1. *)
Theorem analyze_chosen_main (files : list (FileStorage Data)) (n : nat)
    (file : FileStorage Data) (rep : Report) :
  files !! n = Some file →
  analyze secure_filename read_excel ord files (Py.str_nat (S n)) = Rendered rep →
  main_source rep = upload_name secure_filename (S n) file.
Proof.
  intros Hfile (sources & Hfiles & Hrun)%analyze_run.
  pose proof Hfiles as (Hlen & _ & Hnew)%analyze_files_lookup;
    [|by intros k ?%elem_of_nil].
  simpl in Hlen, Hnew.
  destruct (Hnew n file Hfile) as (s & Hs & Hname). rewrite <- Hname.
  assert (n < length files) as Hn by (by eapply lookup_lt_Some).
  assert (analyze_main_key (Py.str_nat (S n)) sources = Some ("s" +:+ Py.str_nat (S n)))
    as Hkey.
  { unfold analyze_main_key. rewrite strip_str_nat, isdigit_str_nat, int_of_digits_str_nat.
    unfold dict_keys. rewrite length_fmap, Hlen. rewrite decide_True by lia.
    replace (Z.to_nat (Z.of_nat (S n) - 1)) with n by lia.
    rewrite list_lookup_fmap. exact (f_equal (fmap fst) Hs). }
  rewrite Hkey in Hrun.
  apply (run_health_check_main_source sources (Some ("s" +:+ Py.str_nat (S n)))
           ("s" +:+ Py.str_nat (S n)) s rep); [done| |done].
  apply (dict_get_lookup sources n); [done|].
  intros n' k' v' Hlt Hn'.
  assert (is_Some (files !! n')) as [file' Hfile'] by (apply lookup_lt_is_Some; lia).
  destruct (Hnew n' file' Hfile') as (s' & Hs' & _).
  rewrite Hs' in Hn'. injection Hn' as <- <-.
  intros Heq. injection Heq as Heq%str_nat_inj. lia.
Qed.
End analyze_sources.

Lemma analyze_default_main_witness :
  ∃ (rep : Report) (file : FileStorage (list (string * string))) rest,
    analyze (λ s, s) sample_reader sorted_order sample_files "first" = Rendered rep ∧
    sample_files = file :: rest ∧
    main_source rep = upload_name (λ s, s) 1 file.
Proof.
  assert ({ rep | analyze (λ s, s) sample_reader sorted_order sample_files "first" =
                  Rendered rep }) as [rep Hrep].
  { vm_compute. eexists. reflexivity. }
  assert (is_ascii "first") as Hascii.
  { unfold is_ascii. apply (bool_decide_unpack _). by vm_compute. }
  destruct (analyze_default_main (λ s, s) sample_reader sorted_order sample_files
              "first" rep Hascii eq_refl Hrep) as (file & rest & Hfiles & Hmain).
  exists rep, file, rest. exact (conj Hrep (conj Hfiles Hmain)).
Defined.

Lemma analyze_chosen_main_witness :
  ∃ rep,
    analyze (λ s, s) sample_reader sorted_order sample_files "2" = Rendered rep ∧
    main_source rep = "other.xls".
Proof.
  assert ({ rep | analyze (λ s, s) sample_reader sorted_order sample_files "2" =
                  Rendered rep }) as [rep Hrep].
  { vm_compute. eexists. reflexivity. }
  exists rep. split; [exact Hrep|].
  apply (analyze_chosen_main (λ s, s) sample_reader sorted_order sample_files 1
           {| filename := "other.xls"; stream := [("check a", "COL1"); ("X", "")] |} rep).
  - reflexivity.
  - exact Hrep.
Defined.

